(** * Stock / sale consistency workflow of the retail inventory backend

    A shallow embedding of [main.py]: the persistence gateway
    [execute_query], the request handlers that read a stock quantity before
    they change it ([add_sale], [remove_stock], [delete_product]) and the
    read-only listings ([get_stocks], [get_expiring_stocks]).

    The relational store is a record of tables, every table a list of rows
    in insertion order.  A handler is a computation over a [World]: the
    store, the clock, and the store errors still to come. *)

From Stdlib Require Import ZArith List String Bool Lia DecimalString PrimFloat.
Import ListNotations.

Local Open Scope string_scope.
Local Open Scope Z_scope.

(** ** Request bodies (the pydantic models) *)

Record Product := mkProduct {
  product_name : string;
  category : string;
  price : float;
  product_user_id : Z
}.

(** Calendar dates are day numbers (Python's [date.toordinal]); the clock is
    a number of seconds counted from midnight of day 0. *)
Definition Date := Z.

Record Stock := mkStock {
  stock_product_id : Z;
  stock_quantity : Z;
  expiry_date : Date;
  stock_user_id : Z
}.

Record Sale := mkSale {
  sale_product_id : Z;
  quantity_sold : Z;
  sale_user_id : Z
}.

(** ** The store *)

(** Modelled from the spec: the schema of the [retail_management] database is
    not part of the repository.  The columns are those named by the SQL
    statements of [main.py]; the generated keys ([product_id], [stock_id],
    [sale_id]) and the defaulted [sale_date] are as section 3 of the
    specification gives them.  Integer columns hold any integer: no range
    and no sign is imposed by the store. *)
Record ProductRow := mkProductRow {
  p_product_id : Z;
  p_product_name : string;
  p_category : string;
  p_price : float;
  p_user_id : Z
}.

Record StockRow := mkStockRow {
  s_stock_id : Z;
  s_product_id : Z;
  s_stock_quantity : Z;
  s_expiry_date : Date;
  s_user_id : Z
}.

Record SaleRow := mkSaleRow {
  l_sale_id : Z;
  l_product_id : Z;
  l_quantity_sold : Z;
  l_user_id : Z;
  l_sale_date : Z
}.

Record DB := mkDB {
  products : list ProductRow;
  stocks : list StockRow;
  sales : list SaleRow;
  next_product_id : Z;
  next_stock_id : Z;
  next_sale_id : Z
}.

Definition empty_db : DB := mkDB [] [] [] 1 1 1.

Definition set_stocks (d : DB) (ss : list StockRow) : DB :=
  mkDB (products d) ss (sales d)
       (next_product_id d) (next_stock_id d) (next_sale_id d).

Definition set_products (d : DB) (ps : list ProductRow) : DB :=
  mkDB ps (stocks d) (sales d)
       (next_product_id d) (next_stock_id d) (next_sale_id d).

Definition set_quantity (s : StockRow) (q : Z) : StockRow :=
  mkStockRow (s_stock_id s) (s_product_id s) q (s_expiry_date s) (s_user_id s).

(** ** Result sets *)

Inductive Value :=
| VInt (z : Z)
| VStr (s : string)
| VDate (d : Date).

(** A row of a result set is a dictionary from column names to values
    ([cursor(dictionary=True)]). *)
Definition Row := list (string * Value).

(** What [execute_query] returns: the fetched rows of a SELECT, [None] after
    a committed write, or the dictionary [{"error": str(e)}]. *)
Inductive QueryResult :=
| Rows (rs : list Row)
| NoneResult
| ErrorDict (msg : string).

(** ** The SQL statements of [main.py], with their bind values *)

Inductive Stmt :=
| InsertProduct (name cat : string) (pr : float) (user_id : Z)
| InsertStock (product_id quantity : Z) (expiry : Date) (user_id : Z)
| SelectStocksOfUser (user_id : Z)
| SelectStockQuantityByProduct (product_id : Z)
| InsertSale (product_id quantity user_id : Z)
| UpdateStockByProduct (quantity product_id : Z)
| SelectExpiring (threshold : Date) (user_id : Z)
| SelectProductId (product_id : Z)
| DeleteStocksByProduct (product_id : Z)
| DeleteProduct (product_id : Z)
| SelectStockQuantity (stock_id user_id : Z)
| DeleteStock (stock_id user_id : Z)
| UpdateStock (quantity stock_id user_id : Z).

(** WHERE clauses. *)
Definition of_product (product_id : Z) (s : StockRow) : bool :=
  s_product_id s =? product_id.

Definition is_stock (stock_id user_id : Z) (s : StockRow) : bool :=
  (s_stock_id s =? stock_id) && (s_user_id s =? user_id).

Definition is_product (product_id : Z) (p : ProductRow) : bool :=
  p_product_id p =? product_id.

Definition expiring (threshold : Date) (user_id : Z) (s : StockRow) : bool :=
  (s_expiry_date s <=? threshold) && (s_user_id s =? user_id).

Definition stock_of_user (user_id : Z) (s : StockRow) : bool :=
  s_user_id s =? user_id.

(** [UPDATE stocks SET stock_quantity = stock_quantity - %s WHERE ...] *)
Definition decrement (cond : StockRow -> bool) (q : Z) (s : StockRow) : StockRow :=
  if cond s then set_quantity s (s_stock_quantity s - q) else s.

(** [SELECT s.stock_id, p.product_name, s.stock_quantity, s.expiry_date
     FROM stocks s JOIN products p ON s.product_id = p.product_id WHERE ...] *)
Definition stock_view (s : StockRow) (p : ProductRow) : Row :=
  [ ("stock_id", VInt (s_stock_id s));
    ("product_name", VStr (p_product_name p));
    ("stock_quantity", VInt (s_stock_quantity s));
    ("expiry_date", VDate (s_expiry_date s)) ].

Definition join_products (ps : list ProductRow) (ss : list StockRow) : list Row :=
  flat_map (fun s => map (stock_view s) (filter (is_product (s_product_id s)) ps)) ss.

Definition quantity_row (s : StockRow) : Row :=
  [ ("stock_quantity", VInt (s_stock_quantity s)) ].

Definition product_id_row (p : ProductRow) : Row :=
  [ ("product_id", VInt (p_product_id p)) ].

(** The effect of one statement on the store and what the cursor yields.
    [now] is the store's clock, read for the default of [sale_date]. *)
Definition run_stmt (now : Z) (st : Stmt) (d : DB) : QueryResult * DB :=
  match st with
  | InsertProduct name cat pr uid =>
      (NoneResult,
       mkDB (products d ++ [mkProductRow (next_product_id d) name cat pr uid])
            (stocks d) (sales d)
            (next_product_id d + 1) (next_stock_id d) (next_sale_id d))
  | InsertStock pid q e uid =>
      (NoneResult,
       mkDB (products d)
            (stocks d ++ [mkStockRow (next_stock_id d) pid q e uid])
            (sales d)
            (next_product_id d) (next_stock_id d + 1) (next_sale_id d))
  | SelectStocksOfUser uid =>
      (Rows (join_products (products d) (filter (stock_of_user uid) (stocks d))), d)
  | SelectStockQuantityByProduct pid =>
      (Rows (map quantity_row (filter (of_product pid) (stocks d))), d)
  | InsertSale pid q uid =>
      (NoneResult,
       mkDB (products d) (stocks d)
            (sales d ++ [mkSaleRow (next_sale_id d) pid q uid now])
            (next_product_id d) (next_stock_id d) (next_sale_id d + 1))
  | UpdateStockByProduct q pid =>
      (NoneResult, set_stocks d (map (decrement (of_product pid) q) (stocks d)))
  | SelectExpiring t uid =>
      (Rows (join_products (products d) (filter (expiring t uid) (stocks d))), d)
  | SelectProductId pid =>
      (Rows (map product_id_row (filter (is_product pid) (products d))), d)
  | DeleteStocksByProduct pid =>
      (NoneResult,
       set_stocks d (filter (fun s => negb (of_product pid s)) (stocks d)))
  | DeleteProduct pid =>
      (NoneResult,
       set_products d (filter (fun p => negb (is_product pid p)) (products d)))
  | SelectStockQuantity sid uid =>
      (Rows (map quantity_row (filter (is_stock sid uid) (stocks d))), d)
  | DeleteStock sid uid =>
      (NoneResult,
       set_stocks d (filter (fun s => negb (is_stock sid uid s)) (stocks d)))
  | UpdateStock q sid uid =>
      (NoneResult, set_stocks d (map (decrement (is_stock sid uid) q) (stocks d)))
  end.

(** ** The world a handler runs in *)

(** [faults] lists, statement by statement, whether the store raises an
    [Error] (and with which text) on the next call of [execute_query]; past
    its end the store answers.  Connectivity losses and violated constraints
    of the schema are among these errors. *)
Record World := mkWorld {
  db : DB;
  clock : Z;
  faults : list (option string)
}.

Inductive Exn :=
| HTTPException (status_code : Z) (detail : string)
| KeyError
| IndexError
| TypeError
| OverflowError.

(** State and exception monad of the handlers. *)
Definition M (A : Type) : Type := World -> (Exn + A) * World.

Definition ret {A} (a : A) : M A := fun w => (inr a, w).

Definition raise {A} (e : Exn) : M A := fun w => (inl e, w).

Definition bind {A B} (m : M A) (k : A -> M B) : M B :=
  fun w =>
    match m w with
    | (inl e, w') => (inl e, w')
    | (inr a, w') => k a w'
    end.

Notation "x <- m ;; k" := (bind m (fun x => k))
  (at level 61, m at next level, right associativity).
Notation "m ;;; k" := (bind m (fun _ => k))
  (at level 61, right associativity).

(** [execute_query]: a store error is caught and returned as a dictionary,
    the statement then has no effect. *)
Definition execute_query (st : Stmt) : M QueryResult :=
  fun w =>
    match faults w with
    | Some msg :: fs => (inr (ErrorDict msg), mkWorld (db w) (clock w) fs)
    | None :: fs =>
        let (r, d) := run_stmt (clock w) st (db w) in
        (inr r, mkWorld d (clock w) fs)
    | [] =>
        let (r, d) := run_stmt (clock w) st (db w) in
        (inr r, mkWorld d (clock w) [])
    end.

(** ** Python's view of a query result *)

(** Truth value: an empty list and [None] are false, a non-empty list and
    the one-key error dictionary are true. *)
Definition truthy (r : QueryResult) : bool :=
  match r with
  | Rows [] => false
  | Rows (_ :: _) => true
  | NoneResult => false
  | ErrorDict _ => true
  end.

(** [r[0]] *)
Definition first_row (r : QueryResult) : M Row :=
  match r with
  | Rows (x :: _) => ret x
  | Rows [] => raise IndexError
  | NoneResult => raise TypeError
  | ErrorDict _ => raise KeyError
  end.

Fixpoint lookup (key : string) (r : Row) : option Value :=
  match r with
  | [] => None
  | (k, v) :: r' => if String.eqb k key then Some v else lookup key r'
  end.

(** [row[key]] for an integer column. *)
Definition get_int (r : Row) (key : string) : M Z :=
  match lookup key r with
  | Some (VInt z) => ret z
  | Some _ => raise TypeError
  | None => raise KeyError
  end.

(** [str(n)] of a Python integer. *)
Definition str (n : Z) : string := NilZero.string_of_int (Z.to_int n).

(** ** Responses *)

Inductive Response :=
| Message (text : string)
| RowList (rs : list Row)
| Null
| ErrorBody (msg : string).

(** What a handler returns when it hands back the result of [execute_query]
    as it is. *)
Definition as_response (r : QueryResult) : Response :=
  match r with
  | Rows rs => RowList rs
  | NoneResult => Null
  | ErrorDict msg => ErrorBody msg
  end.

(** ** Dates: [datetime.now() + timedelta(days=days)] and [strftime('%Y-%m-%d')] *)

Definition seconds_per_day : Z := 86400.

(** [date.min.toordinal()] and [date.max.toordinal()]. *)
Definition min_ordinal : Z := 1.
Definition max_ordinal : Z := 3652059.

(** [timedelta(days=n)], in seconds; more than 999999999 days overflow. *)
Definition timedelta (days : Z) : M Z :=
  if Z.abs days <=? 999999999
  then ret (days * seconds_per_day)
  else raise OverflowError.

(** The date part of a clock reading; the formatted date is bound to the
    statement, where the store reads it back as a date. *)
Definition strftime_date (t : Z) : Date := t / seconds_per_day.

Definition datetime_add (t delta : Z) : M Z :=
  let r := t + delta in
  if (min_ordinal <=? strftime_date r) && (strftime_date r <=? max_ordinal)
  then ret r
  else raise OverflowError.

Definition datetime_now : M Z := fun w => (inr (clock w), w).

(** ** The handlers *)

(** [POST /products/] *)
Definition add_product (product : Product) : M Response :=
  result <- execute_query
              (InsertProduct (product_name product) (category product)
                             (price product) (product_user_id product)) ;;
  match result with
  | NoneResult => ret (Message "Product added successfully")
  | _ => ret (as_response result)
  end.

(** [POST /stocks/] *)
Definition add_stock (stock : Stock) : M Response :=
  result <- execute_query
              (InsertStock (stock_product_id stock) (stock_quantity stock)
                           (expiry_date stock) (stock_user_id stock)) ;;
  match result with
  | NoneResult => ret (Message "Stock added successfully")
  | _ => ret (as_response result)
  end.

(** [GET /stocks/] *)
Definition get_stocks (user_id : Z) : M Response :=
  stocks <- execute_query (SelectStocksOfUser user_id) ;;
  match stocks with
  | Rows rs => ret (RowList rs)
  | _ => ret (ErrorBody "Error fetching stocks")
  end.

(** [POST /sales/] *)
Definition add_sale (sale : Sale) : M Response :=
  stock <- execute_query (SelectStockQuantityByProduct (sale_product_id sale)) ;;
  insufficient <-
    (if negb (truthy stock) then ret true
     else row <- first_row stock ;;
          available <- get_int row "stock_quantity" ;;
          ret (available <? quantity_sold sale)) ;;
  if insufficient : bool
  then raise (HTTPException 400 "Insufficient stock available")
  else
    execute_query
      (InsertSale (sale_product_id sale) (quantity_sold sale) (sale_user_id sale)) ;;;
    execute_query
      (UpdateStockByProduct (quantity_sold sale) (sale_product_id sale)) ;;;
    ret (Message "Sale added and stock updated successfully").

(** [GET /stocks/expiring/], [days] defaulting to 7 *)
Definition get_expiring_stocks (user_id : Z) (days : option Z) : M Response :=
  let days := match days with Some d => d | None => 7 end in
  now <- datetime_now ;;
  delta <- timedelta days ;;
  expiry_threshold <- datetime_add now delta ;;
  expiring_stocks <- execute_query
                       (SelectExpiring (strftime_date expiry_threshold) user_id) ;;
  ret (as_response expiring_stocks).

(** [DELETE /products/{product_id}] *)
Definition delete_product (product_id : Z) : M Response :=
  product <- execute_query (SelectProductId product_id) ;;
  if negb (truthy product)
  then raise (HTTPException 404 "Product not found")
  else
    execute_query (DeleteStocksByProduct product_id) ;;;
    execute_query (DeleteProduct product_id) ;;;
    ret (Message "Product and associated stocks deleted successfully").

(** [DELETE /stocks/] *)
Definition remove_stock (stock_id quantity user_id : Z) : M Response :=
  stock <- execute_query (SelectStockQuantity stock_id user_id) ;;
  if negb (truthy stock)
  then raise (HTTPException 404 "Stock not found for this product and user")
  else
    row <- first_row stock ;;
    current_stock <- get_int row "stock_quantity" ;;
    if current_stock <? quantity
    then raise (HTTPException 400 "Not enough stock available to remove")
    else if current_stock =? quantity
    then
      execute_query (DeleteStock stock_id user_id) ;;;
      ret (Message "Stock completely removed")
    else
      execute_query (UpdateStock quantity stock_id user_id) ;;;
      ret (Message ("Stock reduced by " ++ str quantity
                    ++ ". Remaining stock: " ++ str (current_stock - quantity))).

(** ** Vocabulary of the properties *)

(** The store raises no error on the next [n] statements. *)
Fixpoint calm (n : nat) (fs : list (option string)) : Prop :=
  match n, fs with
  | O, _ => True
  | S _, [] => True
  | S n', None :: fs' => calm n' fs'
  | S _, Some _ :: _ => False
  end.

(** The stock row a read by [stock_id] and [user_id] finds first. *)
Definition find_stock (stock_id user_id : Z) (d : DB) : option StockRow :=
  hd_error (filter (is_stock stock_id user_id) (stocks d)).

(** The stock row a read by [product_id] finds first: the one [add_sale]
    checks. *)
Definition checked_stock (product_id : Z) (d : DB) : option StockRow :=
  hd_error (filter (of_product product_id) (stocks d)).

Definition total_quantity (product_id : Z) (d : DB) : Z :=
  fold_right Z.add 0
    (map s_stock_quantity (filter (of_product product_id) (stocks d))).

Definition non_negative (d : DB) : Prop :=
  Forall (fun s => 0 <= s_stock_quantity s) (stocks d).

(** The rows a user owns, table by table. *)
Definition products_of (user_id : Z) (d : DB) : list ProductRow :=
  filter (fun p => p_user_id p =? user_id) (products d).

Definition stocks_of (user_id : Z) (d : DB) : list StockRow :=
  filter (stock_of_user user_id) (stocks d).

Definition sales_of (user_id : Z) (d : DB) : list SaleRow :=
  filter (fun l => l_user_id l =? user_id) (sales d).

(** Referential shape of the store: product ids are keys, and every stock
    row references a stored product. *)
Definition product_ids_unique (d : DB) : Prop :=
  NoDup (map p_product_id (products d)).

Definition stocks_reference_products (d : DB) : Prop :=
  Forall (fun s => exists p, In p (products d) /\ p_product_id p = s_product_id s)
         (stocks d).

(** The inner JOIN keeps a stock row when a stored product carries its
    [product_id]. *)
Definition references_product (d : DB) (s : StockRow) : bool :=
  existsb (is_product (s_product_id s)) (products d).

(** The date the clock shows, and the [days] parameter with its default. *)
Definition today (w : World) : Date := strftime_date (clock w).

Definition days_or_default (days : option Z) : Z :=
  match days with Some d => d | None => 7 end.

(** Running [op] for [caller] leaves the rows of every other user as they
    were. *)
Definition leaves_others_untouched (op : M Response) (caller : Z) (w : World) : Prop :=
  forall other, other <> caller ->
    products_of other (db (snd (op w))) = products_of other (db w) /\
    stocks_of other (db (snd (op w))) = stocks_of other (db w) /\
    sales_of other (db (snd (op w))) = sales_of other (db w).

(** Stock ids are keys. *)
Definition stock_ids_unique (d : DB) : Prop :=
  NoDup (map s_stock_id (stocks d)).

(** The world a handler leaves behind. *)
Definition exec {A} (m : M A) (w : World) : World := snd (m w).

(** Sequences of the two operations that decrement stock. *)
Inductive Op :=
| RecordSale (sale : Sale)
| RemoveStock (stock_id quantity user_id : Z).

Definition run_op (o : Op) : M Response :=
  match o with
  | RecordSale sale => add_sale sale
  | RemoveStock stock_id quantity user_id => remove_stock stock_id quantity user_id
  end.

Fixpoint run_ops (os : list Op) (w : World) : World :=
  match os with
  | [] => w
  | o :: os' => run_ops os' (exec (run_op o) w)
  end.

Definition is_remove_stock (o : Op) : Prop :=
  match o with RemoveStock _ _ _ => True | RecordSale _ => False end.

(** ** Stores built through the API *)

(** An empty store whose clock reads 01:00 on day 738000. *)
Definition fresh_world : World :=
  mkWorld empty_db (738000 * seconds_per_day + 3600) [].

(** User [owner] registers one product and two stock lots of it, of
    quantities [q1] and [q2]. *)
Definition two_lots (owner q1 q2 : Z) : World :=
  exec (add_stock (mkStock 1 q2 738010 owner))
    (exec (add_stock (mkStock 1 q1 738003 owner))
       (exec (add_product (mkProduct "milk" "dairy" 1.5%float owner))
          fresh_world)).

(** ** Accounts: [signup] and [login]

    The two handlers read and write the [users] table only; their world is
    that table, its key counter and the store errors to come.  The store
    compares emails and passwords as strings, character by character. *)

Module Accounts.

(** The pydantic models [User] and [Login]. *)
Record User := mkUser {
  username : string;
  email : string;
  password : string
}.

Record Login := mkLogin {
  login_email : string;
  login_password : string
}.

(** Modelled from the spec: the [users] table, whose schema is not part of
    the repository; its columns are those the statements of [signup] and
    [login] name, [user_id] being generated by the store. *)
Record UserRow := mkUserRow {
  u_user_id : Z;
  u_username : string;
  u_email : string;
  u_password : string
}.

Record World := mkWorld {
  users : list UserRow;
  next_user_id : Z;
  faults : list (option string)
}.

Inductive Stmt :=
| SelectUserIdByEmail (email : string)
| InsertUser (username email password : string)
| SelectUserByCredentials (email password : string).

Definition has_email (email : string) (u : UserRow) : bool :=
  String.eqb (u_email u) email.

Definition has_credentials (email password : string) (u : UserRow) : bool :=
  String.eqb (u_email u) email && String.eqb (u_password u) password.

Definition user_id_row (u : UserRow) : Row :=
  [ ("user_id", VInt (u_user_id u)) ].

Definition credentials_row (u : UserRow) : Row :=
  [ ("user_id", VInt (u_user_id u));
    ("email", VStr (u_email u));
    ("password", VStr (u_password u)) ].

Definition run_stmt (st : Stmt) (w : World) : QueryResult * World :=
  match st with
  | SelectUserIdByEmail e =>
      (Rows (map user_id_row (filter (has_email e) (users w))), w)
  | InsertUser name e pw =>
      (NoneResult,
       mkWorld (users w ++ [mkUserRow (next_user_id w) name e pw])
               (next_user_id w + 1) (faults w))
  | SelectUserByCredentials e pw =>
      (Rows (map credentials_row (filter (has_credentials e pw) (users w))), w)
  end.

Definition M (A : Type) : Type := World -> (Exn + A) * World.

Definition ret {A} (a : A) : M A := fun w => (inr a, w).

Definition raise {A} (e : Exn) : M A := fun w => (inl e, w).

Definition bind {A B} (m : M A) (k : A -> M B) : M B :=
  fun w =>
    match m w with
    | (inl e, w') => (inl e, w')
    | (inr a, w') => k a w'
    end.

Notation "'let*' x := m 'in' k" := (bind m (fun x => k))
  (at level 10, x name, m at level 100, k at level 200).

(** [execute_query], on the statements of the two handlers. *)
Definition execute_query (st : Stmt) : M QueryResult :=
  fun w =>
    match faults w with
    | Some msg :: fs =>
        (inr (ErrorDict msg), mkWorld (users w) (next_user_id w) fs)
    | None :: fs =>
        let (r, w') := run_stmt st w in
        (inr r, mkWorld (users w') (next_user_id w') fs)
    | [] =>
        let (r, w') := run_stmt st w in
        (inr r, mkWorld (users w') (next_user_id w') [])
    end.

(** [r[0][key]] for an integer column. *)
Definition first_int (r : QueryResult) (key : string) : M Z :=
  match r with
  | Rows (x :: _) =>
      match lookup key x with
      | Some (VInt z) => ret z
      | Some _ => raise TypeError
      | None => raise KeyError
      end
  | Rows [] => raise IndexError
  | NoneResult => raise TypeError
  | ErrorDict _ => raise KeyError
  end.

(** [POST /signup/] *)
Definition signup (user : User) : M Response :=
  let* existing_user := execute_query (SelectUserIdByEmail (email user)) in
  if truthy existing_user
  then raise (HTTPException 400 "User with this email already exists")
  else
    let* result := execute_query
                     (InsertUser (username user) (email user) (password user)) in
    match result with
    | NoneResult => ret (Message "User registered successfully")
    | _ => ret (as_response result)
    end.

(** The body [{"message": ..., "user_id": ...}] of a successful login. *)
Inductive LoginResponse :=
| LoginMessage (message : string) (user_id : Z).

(** [POST /login/] *)
Definition login (login_data : Login) : M LoginResponse :=
  let* user := execute_query
                 (SelectUserByCredentials (login_email login_data)
                                          (login_password login_data)) in
  if negb (truthy user)
  then raise (HTTPException 400 "Invalid email or password")
  else
    let* user_id := first_int user "user_id" in
    ret (LoginMessage "Login successful" user_id).

(** Emails are keys of the [users] table. *)
Definition emails_unique (w : World) : Prop :=
  NoDup (map u_email (users w)).

End Accounts.

(** The store of the specification's scenarios: one lot of product 10,
    owned by user 7. *)
Definition one_lot (quantity : Z) : World :=
  mkWorld (mkDB [mkProductRow 10 "milk" "dairy" 1.5%float 7]
                [mkStockRow 1 10 quantity 738003 7] [] 11 2 1)
          (738000 * seconds_per_day) [].

(** ** The scenarios of the specification, run *)

Example sale_of_3_out_of_5 :
  fst (add_sale (mkSale 10 3 7) (one_lot 5)) =
    inr (Message "Sale added and stock updated successfully") /\
  stocks (db (exec (add_sale (mkSale 10 3 7)) (one_lot 5))) =
    [mkStockRow 1 10 2 738003 7] /\
  sales (db (exec (add_sale (mkSale 10 3 7)) (one_lot 5))) =
    [mkSaleRow 1 10 3 7 (738000 * seconds_per_day)].
Proof. repeat split. Qed.

Example sale_of_10_out_of_2 :
  add_sale (mkSale 10 10 7) (one_lot 2) =
    (inl (HTTPException 400 "Insufficient stock available"), one_lot 2).
Proof. reflexivity. Qed.

Example remove_2_out_of_2 :
  fst (remove_stock 1 2 7 (one_lot 2)) = inr (Message "Stock completely removed") /\
  stocks (db (exec (remove_stock 1 2 7) (one_lot 2))) = [].
Proof. repeat split. Qed.

Example remove_for_another_user :
  remove_stock 1 2 8 (one_lot 2) =
    (inl (HTTPException 404 "Stock not found for this product and user"),
     one_lot 2).
Proof. reflexivity. Qed.

Example str_examples : str 12 = "12" /\ str 0 = "0" /\ str (-6) = "-6".
Proof. repeat split. Qed.

(** A store error on the read is not an empty result: the error dictionary
    is true, and indexing it raises [KeyError]. *)
Example sale_on_failed_read :
  fst (add_sale (mkSale 10 3 7)
         (mkWorld (db (one_lot 5)) 0 [Some "connection refused"])) =
    inl KeyError.
Proof. reflexivity. Qed.

(** A threshold past [date.max] is an [OverflowError]. *)
Example expiring_overflow :
  fst (get_expiring_stocks 7 (Some 3000000) (one_lot 5)) = inl OverflowError.
Proof. reflexivity. Qed.

(** ** The gateway *)

Lemma calm_nil n : calm n [].
Proof. destruct n; exact I. Qed.

Lemma calm_S n fs : calm (S n) fs -> calm n fs.
Proof.
  revert fs; induction n as [|n IH]; intros fs H; [exact I|].
  destruct fs as [|[m|] fs]; simpl in *; auto.
Qed.

(** A statement the store raises no error on runs, and the errors to come
    move on by one. *)
Lemma execute_query_calm n st w :
  calm (S n) (faults w) ->
  exists fs,
    calm n fs /\
    execute_query st w =
      (inr (fst (run_stmt (clock w) st (db w))),
       mkWorld (snd (run_stmt (clock w) st (db w))) (clock w) fs).
Proof.
  intros H. unfold execute_query.
  destruct (faults w) as [|[m|] fs]; simpl in H.
  - exists []. split; [apply calm_nil|].
    destruct (run_stmt (clock w) st (db w)); reflexivity.
  - contradiction.
  - exists fs. split; [exact H|].
    destruct (run_stmt (clock w) st (db w)); reflexivity.
Qed.

(** ** Lists of rows *)

Lemma filter_negb_none {A} (f : A -> bool) (l : list A) :
  filter f (filter (fun x => negb (f x)) l) = [].
Proof.
  induction l as [|x l IH]; simpl; [reflexivity|].
  destruct (f x) eqn:E; simpl; [exact IH|]. rewrite E. exact IH.
Qed.

Lemma is_stock_set_quantity sid uid s q :
  is_stock sid uid (set_quantity s q) = is_stock sid uid s.
Proof. reflexivity. Qed.

Lemma of_product_set_quantity pid s q :
  of_product pid (set_quantity s q) = of_product pid s.
Proof. reflexivity. Qed.

(** An UPDATE changes no column its WHERE clause reads, so the rows it
    selects are the rows it has changed. *)
Lemma filter_decrement (cond : StockRow -> bool) q l :
  (forall s q', cond (set_quantity s q') = cond s) ->
  filter cond (map (decrement cond q) l) =
  map (fun s => set_quantity s (s_stock_quantity s - q)) (filter cond l).
Proof.
  intros Hc. induction l as [|s l IH]; simpl; [reflexivity|].
  destruct (cond s) eqn:E.
  - replace (decrement cond q s) with (set_quantity s (s_stock_quantity s - q))
      by (unfold decrement; rewrite E; reflexivity).
    rewrite Hc, E. simpl. f_equal. exact IH.
  - replace (decrement cond q s) with s
      by (unfold decrement; rewrite E; reflexivity).
    rewrite E. exact IH.
Qed.

Lemma hd_error_map {A B} (f : A -> B) (l : list A) :
  hd_error (map f l) = option_map f (hd_error l).
Proof. destruct l; reflexivity. Qed.

Lemma find_stock_Some sid uid d s :
  find_stock sid uid d = Some s ->
  exists rest, filter (is_stock sid uid) (stocks d) = s :: rest.
Proof.
  unfold find_stock. destruct (filter _ _) as [|x rest]; simpl; [discriminate|].
  intros [= ->]. eauto.
Qed.

Lemma find_stock_In sid uid d s :
  find_stock sid uid d = Some s ->
  In s (stocks d) /\ s_stock_id s = sid /\ s_user_id s = uid.
Proof.
  intros H. destruct (find_stock_Some _ _ _ _ H) as (rest & E).
  assert (Hin : In s (filter (is_stock sid uid) (stocks d)))
    by (rewrite E; left; reflexivity).
  apply filter_In in Hin. destruct Hin as (Hin & Hm).
  unfold is_stock in Hm. apply andb_true_iff in Hm. destruct Hm as (H1 & H2).
  apply Z.eqb_eq in H1, H2. auto.
Qed.

(** ** [remove_stock] *)

(** The read of [remove_stock] on a store that answers it: the handler goes
    on with the quantity of the first row matching [stock_id] and
    [user_id]. *)
Lemma remove_stock_read n stock_id quantity user_id w s :
  calm (S n) (faults w) ->
  find_stock stock_id user_id (db w) = Some s ->
  exists fs,
    calm n fs /\
    remove_stock stock_id quantity user_id w =
      (if s_stock_quantity s <? quantity
       then raise (HTTPException 400 "Not enough stock available to remove")
       else if s_stock_quantity s =? quantity
       then
         execute_query (DeleteStock stock_id user_id) ;;;
         ret (Message "Stock completely removed")
       else
         execute_query (UpdateStock quantity stock_id user_id) ;;;
         ret (Message ("Stock reduced by " ++ str quantity
                       ++ ". Remaining stock: "
                       ++ str (s_stock_quantity s - quantity))))
        (mkWorld (db w) (clock w) fs).
Proof.
  intros Hc Hf. destruct (find_stock_Some _ _ _ _ Hf) as (rest & E).
  unfold remove_stock at 1, bind at 1.
  destruct (execute_query_calm n (SelectStockQuantity stock_id user_id) w Hc)
    as (fs & Hfs & ->).
  exists fs. split; [exact Hfs|].
  cbn [run_stmt fst snd]. rewrite E. reflexivity.
Qed.

Lemma remove_stock_not_found stock_id quantity user_id w :
  calm 1 (faults w) ->
  find_stock stock_id user_id (db w) = None ->
  remove_stock stock_id quantity user_id w =
    (inl (HTTPException 404 "Stock not found for this product and user"),
     mkWorld (db w) (clock w) (tl (faults w))).
Proof.
  intros Hc Hf. unfold find_stock in Hf.
  destruct (filter (is_stock stock_id user_id) (stocks (db w))) as [|x l] eqn:E;
    [|discriminate].
  unfold remove_stock, bind, execute_query.
  destruct (faults w) as [|[m|] fs]; simpl in Hc; [|contradiction|];
    cbn [run_stmt]; rewrite E; reflexivity.
Qed.

(** C6: when the matching row holds less than the quantity to remove,
    [remove_stock] fails with status 400 ("Not enough stock available to
    remove") and the store is left as it was, the row included. *)
Theorem remove_stock_insufficient stock_id quantity user_id w s :
  calm 1 (faults w) ->
  find_stock stock_id user_id (db w) = Some s ->
  s_stock_quantity s < quantity ->
  fst (remove_stock stock_id quantity user_id w) =
    inl (HTTPException 400 "Not enough stock available to remove") /\
  db (snd (remove_stock stock_id quantity user_id w)) = db w /\
  find_stock stock_id user_id (db (snd (remove_stock stock_id quantity user_id w)))
    = Some s.
Proof.
  intros Hc Hf Hlt.
  destruct (remove_stock_read 0 stock_id quantity user_id w s Hc Hf)
    as (fs & _ & ->).
  apply Z.ltb_lt in Hlt. rewrite Hlt. cbn. auto.
Qed.

Lemma remove_stock_insufficient_witness :
  let w := mkWorld (mkDB [] [mkStockRow 1 10 5 738003 7] [] 1 2 1) 0 [] in
  fst (remove_stock 1 6 7 w) =
    inl (HTTPException 400 "Not enough stock available to remove") /\
  db (snd (remove_stock 1 6 7 w)) = db w /\
  find_stock 1 7 (db (snd (remove_stock 1 6 7 w)))
    = Some (mkStockRow 1 10 5 738003 7).
Proof.
  apply (remove_stock_insufficient 1 6 7
           (mkWorld (mkDB [] [mkStockRow 1 10 5 738003 7] [] 1 2 1) 0 [])
           (mkStockRow 1 10 5 738003 7)).
  - exact I.
  - reflexivity.
  - reflexivity.
Defined.

(** C4: when the quantity to remove equals the quantity of the matching
    row, [remove_stock] deletes the row, answers "Stock completely removed",
    and a later [remove_stock] for the same [stock_id] and [user_id] fails
    with status 404, whatever quantity it asks for. *)
Theorem remove_stock_full stock_id quantity user_id w s :
  calm 3 (faults w) ->
  find_stock stock_id user_id (db w) = Some s ->
  quantity = s_stock_quantity s ->
  fst (remove_stock stock_id quantity user_id w) =
    inr (Message "Stock completely removed") /\
  stocks (db (snd (remove_stock stock_id quantity user_id w))) =
    filter (fun r => negb (is_stock stock_id user_id r)) (stocks (db w)) /\
  ~ In s (stocks (db (snd (remove_stock stock_id quantity user_id w)))) /\
  forall quantity',
    fst (remove_stock stock_id quantity' user_id
           (snd (remove_stock stock_id quantity user_id w))) =
      inl (HTTPException 404 "Stock not found for this product and user").
Proof.
  intros Hc Hf ->.
  destruct (remove_stock_read 2 stock_id (s_stock_quantity s) user_id w s Hc Hf)
    as (fs & Hfs & ->).
  rewrite Z.ltb_irrefl, Z.eqb_refl.
  unfold bind.
  destruct (execute_query_calm 1 (DeleteStock stock_id user_id)
              (mkWorld (db w) (clock w) fs) Hfs) as (fs' & Hfs' & ->).
  cbn [run_stmt fst snd db clock faults ret set_stocks stocks].
  split; [reflexivity|]. split; [reflexivity|]. split.
  - intros Hin. apply filter_In in Hin. destruct Hin as (_ & Hn).
    destruct (find_stock_In _ _ _ _ Hf) as (_ & H1 & H2).
    unfold is_stock in Hn. rewrite H1, H2, !Z.eqb_refl in Hn. discriminate.
  - intros quantity'. rewrite remove_stock_not_found; [reflexivity|exact Hfs'|].
    unfold find_stock. cbn [db stocks set_stocks].
    rewrite (filter_negb_none (is_stock stock_id user_id)). reflexivity.
Qed.

Lemma remove_stock_full_witness :
  let w := mkWorld (mkDB [] [mkStockRow 1 10 2 738003 7] [] 1 2 1) 0 [] in
  fst (remove_stock 1 2 7 w) = inr (Message "Stock completely removed") /\
  stocks (db (snd (remove_stock 1 2 7 w))) =
    filter (fun r => negb (is_stock 1 7 r)) (stocks (db w)) /\
  ~ In (mkStockRow 1 10 2 738003 7) (stocks (db (snd (remove_stock 1 2 7 w)))) /\
  forall quantity',
    fst (remove_stock 1 quantity' 7 (snd (remove_stock 1 2 7 w))) =
      inl (HTTPException 404 "Stock not found for this product and user").
Proof.
  apply (remove_stock_full 1 2 7
           (mkWorld (mkDB [] [mkStockRow 1 10 2 738003 7] [] 1 2 1) 0 [])
           (mkStockRow 1 10 2 738003 7)).
  - exact I.
  - reflexivity.
  - reflexivity.
Defined.

(** C5: when the quantity to remove is below the quantity of the matching
    row, [remove_stock] keeps the row, takes the quantity off it in place
    (every other stock row, and every product and sale, stays as it was) and
    answers with the remaining quantity, [stock_quantity - quantity]. *)
Theorem remove_stock_partial stock_id quantity user_id w s :
  calm 2 (faults w) ->
  find_stock stock_id user_id (db w) = Some s ->
  quantity < s_stock_quantity s ->
  fst (remove_stock stock_id quantity user_id w) =
    inr (Message ("Stock reduced by " ++ str quantity
                  ++ ". Remaining stock: " ++ str (s_stock_quantity s - quantity))) /\
  stocks (db (snd (remove_stock stock_id quantity user_id w))) =
    map (fun r => if is_stock stock_id user_id r
                  then set_quantity r (s_stock_quantity r - quantity)
                  else r)
        (stocks (db w)) /\
  find_stock stock_id user_id (db (snd (remove_stock stock_id quantity user_id w))) =
    Some (set_quantity s (s_stock_quantity s - quantity)) /\
  products (db (snd (remove_stock stock_id quantity user_id w))) = products (db w) /\
  sales (db (snd (remove_stock stock_id quantity user_id w))) = sales (db w).
Proof.
  intros Hc Hf Hlt.
  destruct (remove_stock_read 1 stock_id quantity user_id w s Hc Hf)
    as (fs & Hfs & ->).
  assert (H1 : (s_stock_quantity s <? quantity) = false) by (apply Z.ltb_ge; lia).
  assert (H2 : (s_stock_quantity s =? quantity) = false) by (apply Z.eqb_neq; lia).
  rewrite H1, H2. unfold bind.
  destruct (execute_query_calm 0 (UpdateStock quantity stock_id user_id)
              (mkWorld (db w) (clock w) fs) Hfs) as (fs' & _ & ->).
  cbn [run_stmt fst snd db clock faults ret set_stocks stocks products sales].
  repeat split.
  unfold find_stock. cbn [stocks set_stocks].
  rewrite (filter_decrement (is_stock stock_id user_id));
    [|intros; apply is_stock_set_quantity].
  rewrite hd_error_map. fold (find_stock stock_id user_id (db w)).
  rewrite Hf. reflexivity.
Qed.

Lemma remove_stock_partial_witness :
  let w := mkWorld (mkDB [] [mkStockRow 1 10 5 738003 7] [] 1 2 1) 0 [] in
  fst (remove_stock 1 2 7 w) =
    inr (Message "Stock reduced by 2. Remaining stock: 3") /\
  stocks (db (snd (remove_stock 1 2 7 w))) = [mkStockRow 1 10 3 738003 7].
Proof.
  destruct (remove_stock_partial 1 2 7
              (mkWorld (mkDB [] [mkStockRow 1 10 5 738003 7] [] 1 2 1) 0 [])
              (mkStockRow 1 10 5 738003 7))
    as (H1 & H2 & _).
  - exact I.
  - reflexivity.
  - reflexivity.
  - split; [exact H1|exact H2].
Defined.

(** ** [add_sale] *)

Lemma calm_tl n fs : calm (S n) fs -> calm n (tl fs).
Proof.
  destruct fs as [|[m|] fs]; simpl; intros H;
    [apply calm_nil|contradiction|exact H].
Qed.

Lemma execute_query_calm_tl st w :
  calm 1 (faults w) ->
  execute_query st w =
    (inr (fst (run_stmt (clock w) st (db w))),
     mkWorld (snd (run_stmt (clock w) st (db w))) (clock w) (tl (faults w))).
Proof.
  intros H. unfold execute_query.
  destruct (faults w) as [|[m|] fs]; simpl in H; [|contradiction|];
    destruct (run_stmt (clock w) st (db w)); reflexivity.
Qed.

(** [execute_query] raises nothing: whatever the store does, the caller gets
    a value back. *)
Lemma execute_query_returns st w :
  exists r, execute_query st w = (inr r, snd (execute_query st w)).
Proof.
  unfold execute_query.
  destruct (faults w) as [|[m|] fs];
    try destruct (run_stmt (clock w) st (db w)); eexists; reflexivity.
Qed.

(** Two writes whose results are dropped, then a message: the message is
    returned whatever the writes gave. *)
Lemma unchecked_writes st1 st2 (r : Response) w :
  fst ((execute_query st1 ;;; execute_query st2 ;;; ret r) w) = inr r.
Proof.
  unfold bind.
  destruct (execute_query_returns st1 w) as (r1 & ->).
  destruct (execute_query_returns st2 (snd (execute_query st1 w))) as (r2 & ->).
  reflexivity.
Qed.

Lemma checked_stock_Some pid d s :
  checked_stock pid d = Some s ->
  exists rest, filter (of_product pid) (stocks d) = s :: rest.
Proof.
  unfold checked_stock. destruct (filter _ _) as [|x rest]; simpl; [discriminate|].
  intros [= ->]. eauto.
Qed.

(** The stock check of [add_sale] on a store that answers it. *)
Lemma add_sale_read_none sale w :
  calm 1 (faults w) ->
  checked_stock (sale_product_id sale) (db w) = None ->
  add_sale sale w =
    (inl (HTTPException 400 "Insufficient stock available"),
     mkWorld (db w) (clock w) (tl (faults w))).
Proof.
  intros Hc Hn. unfold checked_stock in Hn.
  destruct (filter (of_product (sale_product_id sale)) (stocks (db w)))
    as [|x l] eqn:E; [|discriminate].
  unfold add_sale, bind. rewrite execute_query_calm_tl by exact Hc.
  cbn [run_stmt fst snd]. rewrite E. reflexivity.
Qed.

Lemma add_sale_read_some sale w s :
  calm 1 (faults w) ->
  checked_stock (sale_product_id sale) (db w) = Some s ->
  add_sale sale w =
    (if s_stock_quantity s <? quantity_sold sale
     then raise (HTTPException 400 "Insufficient stock available")
     else
       execute_query
         (InsertSale (sale_product_id sale) (quantity_sold sale)
                     (sale_user_id sale)) ;;;
       execute_query
         (UpdateStockByProduct (quantity_sold sale) (sale_product_id sale)) ;;;
       ret (Message "Sale added and stock updated successfully"))
      (mkWorld (db w) (clock w) (tl (faults w))).
Proof.
  intros Hc Hs. destruct (checked_stock_Some _ _ _ Hs) as (rest & E).
  unfold add_sale at 1, bind at 1. rewrite execute_query_calm_tl by exact Hc.
  cbn [run_stmt fst snd]. rewrite E.
  cbn. destruct (s_stock_quantity s <? quantity_sold sale); reflexivity.
Qed.

(** C2: when the store holds no stock row for the product, or the checked
    row holds less than the quantity sold, [add_sale] fails with status 400
    ("Insufficient stock available") and the store is left as it was: no
    sale row is added and no stock quantity changes. *)
Theorem add_sale_insufficient sale w :
  calm 1 (faults w) ->
  checked_stock (sale_product_id sale) (db w) = None \/
  (exists s, checked_stock (sale_product_id sale) (db w) = Some s /\
             s_stock_quantity s < quantity_sold sale) ->
  fst (add_sale sale w) = inl (HTTPException 400 "Insufficient stock available") /\
  sales (db (snd (add_sale sale w))) = sales (db w) /\
  stocks (db (snd (add_sale sale w))) = stocks (db w) /\
  db (snd (add_sale sale w)) = db w.
Proof.
  intros Hc [Hn | (s & Hs & Hlt)].
  - rewrite (add_sale_read_none sale w Hc Hn). cbn. auto.
  - rewrite (add_sale_read_some sale w s Hc Hs).
    apply Z.ltb_lt in Hlt. rewrite Hlt. cbn. auto.
Qed.

Lemma add_sale_insufficient_witness :
  let w := mkWorld (mkDB [] [mkStockRow 1 10 2 738003 7] [] 1 2 1) 0 [] in
  (fst (add_sale (mkSale 10 10 7) w) =
     inl (HTTPException 400 "Insufficient stock available") /\
   db (snd (add_sale (mkSale 10 10 7) w)) = db w) /\
  (fst (add_sale (mkSale 11 1 7) w) =
     inl (HTTPException 400 "Insufficient stock available") /\
   db (snd (add_sale (mkSale 11 1 7) w)) = db w).
Proof.
  split.
  - destruct (add_sale_insufficient (mkSale 10 10 7)
                (mkWorld (mkDB [] [mkStockRow 1 10 2 738003 7] [] 1 2 1) 0 []))
      as (H1 & _ & _ & H2).
    + exact I.
    + right. exists (mkStockRow 1 10 2 738003 7). split; reflexivity.
    + split; [exact H1|exact H2].
  - destruct (add_sale_insufficient (mkSale 11 1 7)
                (mkWorld (mkDB [] [mkStockRow 1 10 2 738003 7] [] 1 2 1) 0 []))
      as (H1 & _ & _ & H2).
    + exact I.
    + left. reflexivity.
    + split; [exact H1|exact H2].
Defined.

(** C10: once the stock check has passed, [add_sale] answers "Sale added
    and stock updated successfully" whatever the store does with the two
    writes: their results are dropped.  When the insert fails no sale row is
    added, when the update fails no stock quantity changes, when both fail
    the store is left as it was, and the answer is the same. *)
Theorem add_sale_success_unchecked sale w s :
  calm 1 (faults w) ->
  checked_stock (sale_product_id sale) (db w) = Some s ->
  quantity_sold sale <= s_stock_quantity s ->
  fst (add_sale sale w) =
    inr (Message "Sale added and stock updated successfully") /\
  (forall e fs, tl (faults w) = Some e :: fs ->
     sales (db (snd (add_sale sale w))) = sales (db w)) /\
  (forall f e fs, tl (faults w) = f :: Some e :: fs ->
     stocks (db (snd (add_sale sale w))) = stocks (db w)) /\
  (forall e1 e2 fs, tl (faults w) = Some e1 :: Some e2 :: fs ->
     db (snd (add_sale sale w)) = db w).
Proof.
  intros Hc Hs Hle.
  rewrite (add_sale_read_some sale w s Hc Hs).
  assert (H : (s_stock_quantity s <? quantity_sold sale) = false)
    by (apply Z.ltb_ge; lia).
  rewrite H. split; [apply unchecked_writes|].
  unfold bind, execute_query. cbn [faults db clock].
  split; [|split].
  - intros e fs ->. destruct fs as [|[m|] fs]; reflexivity.
  - intros f e fs ->. destruct f; reflexivity.
  - intros e1 e2 fs ->. reflexivity.
Qed.

Lemma add_sale_success_unchecked_witness :
  let w := mkWorld (mkDB [] [mkStockRow 1 10 5 738003 7] [] 1 2 1) 0
                   [None; Some "server has gone away"; Some "server has gone away"] in
  fst (add_sale (mkSale 10 3 7) w) =
    inr (Message "Sale added and stock updated successfully") /\
  db (snd (add_sale (mkSale 10 3 7) w)) = db w.
Proof.
  destruct (add_sale_success_unchecked (mkSale 10 3 7)
              (mkWorld (mkDB [] [mkStockRow 1 10 5 738003 7] [] 1 2 1) 0
                 [None; Some "server has gone away"; Some "server has gone away"])
              (mkStockRow 1 10 5 738003 7))
    as (H1 & _ & _ & H2).
  - exact I.
  - reflexivity.
  - cbn. lia.
  - split; [exact H1|].
    exact (H2 "server has gone away" "server has gone away" [] eq_refl).
Defined.

(** ** What the two writes of [add_sale] do to the lots of a product *)

Lemma fold_quantity_decrement q l :
  fold_right Z.add 0
    (map s_stock_quantity
       (map (fun s => set_quantity s (s_stock_quantity s - q)) l)) =
  fold_right Z.add 0 (map s_stock_quantity l) - q * Z.of_nat (List.length l).
Proof.
  induction l as [|s l IH]; [simpl; lia|].
  cbn [map fold_right List.length set_quantity s_stock_quantity]. rewrite IH. lia.
Qed.

(** On a store that raises no error, a sale that passes the check adds one
    sale row and takes the quantity sold off every lot of the product: the
    total falls by the quantity sold times the number of lots. *)
Lemma add_sale_effect sale w s :
  calm 3 (faults w) ->
  checked_stock (sale_product_id sale) (db w) = Some s ->
  quantity_sold sale <= s_stock_quantity s ->
  sales (db (snd (add_sale sale w))) =
    (sales (db w) ++
     [mkSaleRow (next_sale_id (db w)) (sale_product_id sale) (quantity_sold sale)
                (sale_user_id sale) (clock w)])%list /\
  stocks (db (snd (add_sale sale w))) =
    map (decrement (of_product (sale_product_id sale)) (quantity_sold sale))
        (stocks (db w)) /\
  total_quantity (sale_product_id sale) (db (snd (add_sale sale w))) =
    total_quantity (sale_product_id sale) (db w)
    - quantity_sold sale
      * Z.of_nat (List.length (filter (of_product (sale_product_id sale))
                                 (stocks (db w)))).
Proof.
  intros Hc Hs Hle.
  rewrite (add_sale_read_some sale w s (calm_S _ _ (calm_S _ _ Hc)) Hs).
  assert (H : (s_stock_quantity s <? quantity_sold sale) = false)
    by (apply Z.ltb_ge; lia).
  rewrite H. unfold bind.
  pose proof (calm_tl _ _ Hc) as Hc1. pose proof (calm_tl _ _ Hc1) as Hc2.
  rewrite execute_query_calm_tl by (apply calm_S; exact Hc1).
  cbn [run_stmt fst snd db clock faults].
  rewrite execute_query_calm_tl by exact Hc2.
  cbn [run_stmt fst snd db clock faults ret set_stocks stocks sales].
  split; [reflexivity|]. split; [reflexivity|].
  unfold total_quantity. cbn [stocks set_stocks].
  rewrite (filter_decrement (of_product (sale_product_id sale)));
    [|intros; apply of_product_set_quantity].
  apply fold_quantity_decrement.
Qed.

(** C3: a sale of 3 on a product held in two lots of 5 and 4 passes the
    check and adds one sale row, but takes 3 off both lots: the total
    recorded for the product falls from 9 to 3, by 6 and not by 3. *)
Theorem add_sale_decrements_every_lot :
  let w := two_lots 1 5 4 in
  let w' := snd (add_sale (mkSale 1 3 1) w) in
  fst (add_sale (mkSale 1 3 1) w) =
    inr (Message "Sale added and stock updated successfully") /\
  sales (db w) = [] /\
  sales (db w') = [mkSaleRow 1 1 3 1 (clock w)] /\
  map s_stock_quantity (stocks (db w)) = [5; 4] /\
  map s_stock_quantity (stocks (db w')) = [2; 1] /\
  total_quantity 1 (db w) = 9 /\
  total_quantity 1 (db w') = 3 /\
  total_quantity 1 (db w') <> total_quantity 1 (db w) - 3.
Proof.
  cbv zeta. repeat (split; [reflexivity|]).
  vm_compute. discriminate.
Qed.

(** C1: a sale of 3 on a product held in two lots of 5 and 1 passes the
    check, which reads the first lot only, and takes 3 off both lots: the
    second lot, never compared with the quantity sold, is left at -2. *)
Theorem add_sale_overdraws_unchecked_lot :
  let w := two_lots 1 5 1 in
  let w' := snd (add_sale (mkSale 1 3 1) w) in
  non_negative (db w) /\
  checked_stock 1 (db w) = Some (mkStockRow 1 1 5 738003 1) /\
  fst (add_sale (mkSale 1 3 1) w) =
    inr (Message "Sale added and stock updated successfully") /\
  stocks (db w') = [mkStockRow 1 1 2 738003 1; mkStockRow 2 1 (-2) 738010 1] /\
  run_ops [RecordSale (mkSale 1 3 1)] w = w' /\
  ~ non_negative (db w').
Proof.
  cbv zeta. split.
  - unfold non_negative. vm_compute stocks.
    repeat constructor; discriminate.
  - repeat (split; [reflexivity|]).
    unfold non_negative. intros H. vm_compute stocks in H.
    inversion H as [|x l _ H2]; subst.
    inversion H2 as [|y l' H3 _]; subst.
    vm_compute in H3. apply H3. reflexivity.
Qed.

(** ** [delete_product] *)

Lemma filter_nil_iff {A} (f : A -> bool) (l : list A) :
  filter f l = [] <-> forall x, In x l -> f x = false.
Proof.
  induction l as [|a l IH]; simpl.
  - split; [intros _ x []|reflexivity].
  - destruct (f a) eqn:E.
    + split; [discriminate|]. intros H. specialize (H a (or_introl eq_refl)).
      congruence.
    + rewrite IH. split.
      * intros H x [<-|Hin]; auto.
      * intros H x Hin. apply H. right. exact Hin.
Qed.

(** C7: [delete_product] on an id no product carries fails with status 404
    and leaves the store as it was; on the id of a stored product it deletes
    every stock row of that product, then the product, so that no stock row
    references the deleted product afterwards. *)
Theorem delete_product_cascade product_id w :
  calm 3 (faults w) ->
  ((forall p, In p (products (db w)) -> p_product_id p <> product_id) ->
     fst (delete_product product_id w) =
       inl (HTTPException 404 "Product not found") /\
     db (snd (delete_product product_id w)) = db w) /\
  ((exists p, In p (products (db w)) /\ p_product_id p = product_id) ->
     fst (delete_product product_id w) =
       inr (Message "Product and associated stocks deleted successfully") /\
     stocks (db (snd (delete_product product_id w))) =
       filter (fun s => negb (s_product_id s =? product_id)) (stocks (db w)) /\
     products (db (snd (delete_product product_id w))) =
       filter (fun p => negb (p_product_id p =? product_id)) (products (db w)) /\
     (forall s, In s (stocks (db (snd (delete_product product_id w)))) ->
                s_product_id s <> product_id) /\
     (forall p, In p (products (db (snd (delete_product product_id w)))) ->
                p_product_id p <> product_id) /\
     sales (db (snd (delete_product product_id w))) = sales (db w)).
Proof.
  intros Hc.
  pose proof (calm_tl _ _ Hc) as Hc1. pose proof (calm_tl _ _ Hc1) as Hc2.
  unfold delete_product, bind.
  rewrite execute_query_calm_tl by (do 2 apply calm_S; exact Hc).
  cbn [run_stmt fst snd db clock faults].
  destruct (filter (is_product product_id) (products (db w))) as [|x l] eqn:E.
  - split.
    + intros _. cbn. auto.
    + intros (p & Hin & Hp). exfalso.
      pose proof (proj1 (filter_nil_iff _ _) E p Hin) as Hf.
      unfold is_product in Hf. rewrite Hp, Z.eqb_refl in Hf. discriminate.
  - split.
    + intros Hnone. exfalso.
      assert (Hin : In x (filter (is_product product_id) (products (db w))))
        by (rewrite E; left; reflexivity).
      apply filter_In in Hin. destruct Hin as (Hin & Hx).
      apply Z.eqb_eq in Hx. exact (Hnone x Hin Hx).
    + intros _. cbn [map truthy negb].
      rewrite execute_query_calm_tl by (apply calm_S; exact Hc1).
      cbn [run_stmt fst snd db clock faults].
      rewrite execute_query_calm_tl by exact Hc2.
      cbn [run_stmt fst snd db clock faults ret
           set_stocks set_products stocks products sales].
      split; [reflexivity|]. split; [reflexivity|]. split; [reflexivity|].
      split; [|split; [|reflexivity]].
      * intros s Hin. apply filter_In in Hin. destruct Hin as (_ & Hs).
        unfold of_product in Hs. apply negb_true_iff, Z.eqb_neq in Hs. exact Hs.
      * intros p Hin. apply filter_In in Hin. destruct Hin as (_ & Hp).
        unfold is_product in Hp. apply negb_true_iff, Z.eqb_neq in Hp. exact Hp.
Qed.

Lemma delete_product_cascade_witness :
  let w := two_lots 1 5 4 in
  (fst (delete_product 2 w) = inl (HTTPException 404 "Product not found") /\
   db (snd (delete_product 2 w)) = db w) /\
  (fst (delete_product 1 w) =
     inr (Message "Product and associated stocks deleted successfully") /\
   stocks (db (snd (delete_product 1 w))) = [] /\
   products (db (snd (delete_product 1 w))) = []).
Proof.
  split.
  - apply (delete_product_cascade 2 (two_lots 1 5 4)).
    + exact I.
    + intros p [<-|[]]. vm_compute. discriminate.
  - destruct (delete_product_cascade 1 (two_lots 1 5 4) I) as (_ & H).
    destruct H as (H1 & H2 & H3 & _).
    + exists (mkProductRow 1 "milk" "dairy" 1.5%float 1).
      split; [left; reflexivity|reflexivity].
    + split; [exact H1|]. split; [rewrite H2|rewrite H3]; reflexivity.
Defined.

(** ** [get_expiring_stocks] *)

(** Whole days added to a clock reading move its date by as many days. *)
Lemma strftime_date_add t days :
  strftime_date (t + days * seconds_per_day) = strftime_date t + days.
Proof.
  unfold strftime_date, seconds_per_day. apply Z.div_add. discriminate.
Qed.

(** Where product ids are keys, the join finds one product per id. *)
Lemma filter_is_product_key ps p :
  NoDup (map p_product_id ps) ->
  In p ps ->
  filter (is_product (p_product_id p)) ps = [p].
Proof.
  induction ps as [|a ps IH]; intros Hnd Hin; [destruct Hin|].
  cbn [map] in Hnd. inversion Hnd as [|x l Hnotin Hnd']; subst.
  cbn [filter]. unfold is_product at 1.
  destruct Hin as [->|Hin].
  - rewrite Z.eqb_refl. f_equal.
    apply filter_nil_iff. intros x Hx. unfold is_product.
    apply Z.eqb_neq. intros Heq. apply Hnotin. rewrite <- Heq.
    apply in_map. exact Hx.
  - assert (Hne : p_product_id a <> p_product_id p).
    { intros Heq. apply Hnotin. rewrite Heq. apply in_map. exact Hin. }
    apply Z.eqb_neq in Hne. rewrite Hne. apply IH; assumption.
Qed.

Lemma join_products_named ps ss :
  NoDup (map p_product_id ps) ->
  Forall (fun s => exists p, In p ps /\ p_product_id p = s_product_id s) ss ->
  Forall2 (fun s row => exists p, In p ps /\ p_product_id p = s_product_id s /\
                                  row = stock_view s p)
          ss (join_products ps ss).
Proof.
  intros Hnd Hall. induction Hall as [|s ss (p & Hin & Hp) _ IH];
    [constructor|].
  unfold join_products. cbn [flat_map].
  rewrite <- Hp, (filter_is_product_key ps p Hnd Hin). cbn [map app].
  constructor; [|exact IH].
  exists p. rewrite Hp. auto.
Qed.

Lemma Forall2_In_r {A B} (R : A -> B -> Prop) l l' y :
  Forall2 R l l' -> In y l' -> exists x, In x l /\ R x y.
Proof.
  induction 1 as [|a b l l' Hab _ IH]; intros Hin; [destruct Hin|].
  destruct Hin as [<-|Hin].
  - exists a. split; [left; reflexivity|exact Hab].
  - destruct (IH Hin) as (x & Hx & HR). exists x. split; [right|]; assumption.
Qed.

(** Where product ids are keys and every stock row references a stored
    product, [get_expiring_stocks] (on a store that answers, with a
    threshold inside the range of [datetime]) returns, in the order of the
    table, one row for each stock row of the user whose expiry date is on or
    before today plus [days] (7 when [days] is not given), carrying the
    stock id, the name of its product, the quantity and the expiry date; the
    store is left as it was. *)
Theorem get_expiring_stocks_lists user_id days w :
  calm 1 (faults w) ->
  Z.abs (days_or_default days) <= 999999999 ->
  min_ordinal <= today w + days_or_default days <= max_ordinal ->
  product_ids_unique (db w) ->
  stocks_reference_products (db w) ->
  exists rows,
    fst (get_expiring_stocks user_id days w) = inr (RowList rows) /\
    Forall2
      (fun s row =>
         exists p, In p (products (db w)) /\
                   p_product_id p = s_product_id s /\
                   row = [ ("stock_id", VInt (s_stock_id s));
                           ("product_name", VStr (p_product_name p));
                           ("stock_quantity", VInt (s_stock_quantity s));
                           ("expiry_date", VDate (s_expiry_date s)) ])
      (filter (fun s => (s_user_id s =? user_id) &&
                        (s_expiry_date s <=? today w + days_or_default days))
              (stocks (db w)))
      rows /\
    (days = Some 0 ->
     forall row, In row rows ->
       exists s, In s (stocks (db w)) /\ s_user_id s = user_id /\
                 s_expiry_date s <= today w /\
                 lookup "stock_id" row = Some (VInt (s_stock_id s))) /\
    db (snd (get_expiring_stocks user_id days w)) = db w.
Proof.
  intros Hc Habs Hrange Hkeys Hrefs.
  unfold get_expiring_stocks, bind, datetime_now, timedelta, datetime_add.
  fold (days_or_default days).
  apply Z.leb_le in Habs. rewrite Habs. cbn [ret].
  rewrite strftime_date_add. fold (today w).
  destruct Hrange as (Hlo & Hhi). apply Z.leb_le in Hlo, Hhi.
  rewrite Hlo, Hhi. cbn [andb]. unfold ret. cbv beta iota.
  rewrite ?strftime_date_add. fold (today w).
  rewrite execute_query_calm_tl by exact Hc.
  cbn [run_stmt fst snd db clock faults as_response].
  assert (Hfilter :
            filter (expiring (today w + days_or_default days) user_id)
                   (stocks (db w)) =
            filter (fun s => (s_user_id s =? user_id) &&
                             (s_expiry_date s <=? today w + days_or_default days))
                   (stocks (db w))).
  { apply filter_ext. intros s. unfold expiring. apply andb_comm. }
  assert (Hjoin := join_products_named (products (db w))
                     (filter (expiring (today w + days_or_default days) user_id)
                             (stocks (db w)))
                     Hkeys).
  rewrite Hfilter in Hjoin at 2.
  eexists. split; [reflexivity|]. split; [|split; [|reflexivity]].
  - apply Hjoin.
    apply Forall_forall. intros s Hin. apply filter_In in Hin.
    unfold stocks_reference_products in Hrefs.
    rewrite Forall_forall in Hrefs. apply Hrefs. tauto.
  - intros -> row Hin.
    assert (Hall : Forall (fun s => exists p, In p (products (db w)) /\
                                   p_product_id p = s_product_id s)
                     (filter (expiring (today w + 0) user_id) (stocks (db w)))).
    { apply Forall_forall. intros s Hs. apply filter_In in Hs.
      unfold stocks_reference_products in Hrefs.
      rewrite Forall_forall in Hrefs. apply Hrefs. tauto. }
    cbn [days_or_default] in Hin.
    destruct (Forall2_In_r _ _ _ _
                (join_products_named _ _ Hkeys Hall) Hin)
      as (s & Hs & p & _ & _ & ->).
    apply filter_In in Hs. destruct Hs as (Hs & Hexp).
    unfold expiring in Hexp. apply andb_true_iff in Hexp.
    destruct Hexp as (He & Hu). apply Z.leb_le in He. apply Z.eqb_eq in Hu.
    exists s. rewrite Z.add_0_r in He. repeat split; auto.
Qed.

Lemma get_expiring_stocks_lists_witness :
  exists rows,
    fst (get_expiring_stocks 1 None (two_lots 1 5 4)) = inr (RowList rows) /\
    rows = [ [ ("stock_id", VInt 1); ("product_name", VStr "milk");
               ("stock_quantity", VInt 5); ("expiry_date", VDate 738003) ] ].
Proof.
  destruct (get_expiring_stocks_lists 1 None (two_lots 1 5 4))
    as (rows & H1 & _).
  - exact I.
  - vm_compute. discriminate.
  - split; vm_compute; discriminate.
  - unfold product_ids_unique. vm_compute. repeat constructor. intros [].
  - unfold stocks_reference_products.
    repeat constructor;
      exists (mkProductRow 1 "milk" "dairy" 1.5%float 1);
      split; [left; reflexivity|reflexivity|left; reflexivity|reflexivity].
  - exists rows. split; [exact H1|].
    vm_compute in H1. injection H1 as <-. reflexivity.
Defined.

(** ** Whose rows a handler touches *)

(** What a call of [execute_query] can do: fail and change nothing, or run
    the statement. *)
Lemma execute_query_cases st w :
  (exists msg,
     execute_query st w =
       (inr (ErrorDict msg), mkWorld (db w) (clock w) (tl (faults w)))) \/
  execute_query st w =
    (inr (fst (run_stmt (clock w) st (db w))),
     mkWorld (snd (run_stmt (clock w) st (db w))) (clock w) (tl (faults w))).
Proof.
  unfold execute_query. destruct (faults w) as [|[m|] fs]; cbn [tl].
  - right. destruct (run_stmt (clock w) st (db w)); reflexivity.
  - left. exists m. reflexivity.
  - right. destruct (run_stmt (clock w) st (db w)); reflexivity.
Qed.

(** Every store [remove_stock] can leave behind. *)
Lemma remove_stock_db stock_id quantity user_id w :
  db (snd (remove_stock stock_id quantity user_id w)) = db w \/
  (exists s, find_stock stock_id user_id (db w) = Some s /\
             quantity = s_stock_quantity s /\
             db (snd (remove_stock stock_id quantity user_id w)) =
               set_stocks (db w)
                 (filter (fun r => negb (is_stock stock_id user_id r))
                         (stocks (db w)))) \/
  (exists s, find_stock stock_id user_id (db w) = Some s /\
             quantity < s_stock_quantity s /\
             db (snd (remove_stock stock_id quantity user_id w)) =
               set_stocks (db w)
                 (map (decrement (is_stock stock_id user_id) quantity)
                      (stocks (db w)))).
Proof.
  unfold remove_stock, bind, find_stock.
  destruct (execute_query_cases (SelectStockQuantity stock_id user_id) w)
    as [(m & ->)| ->]; [left; reflexivity|].
  cbn [run_stmt fst snd].
  destruct (filter (is_stock stock_id user_id) (stocks (db w))) as [|s rest];
    [left; reflexivity|].
  cbn -[Z.ltb Z.eqb str execute_query].
  destruct (Z.ltb_spec (s_stock_quantity s) quantity) as [Hlt|Hge];
    [left; reflexivity|].
  destruct (Z.eqb_spec (s_stock_quantity s) quantity) as [Heq|Hne].
  - destruct (execute_query_cases (DeleteStock stock_id user_id)
                (mkWorld (db w) (clock w) (tl (faults w))))
      as [(m & ->)| ->]; [left; reflexivity|].
    right; left. exists s. cbn. auto.
  - destruct (execute_query_cases (UpdateStock quantity stock_id user_id)
                (mkWorld (db w) (clock w) (tl (faults w))))
      as [(m & ->)| ->]; [left; reflexivity|].
    right; right. exists s. cbn. repeat split. lia.
Qed.

Lemma filter_other_user_delete stock_id user_id other l :
  other <> user_id ->
  filter (stock_of_user other)
         (filter (fun r => negb (is_stock stock_id user_id r)) l) =
  filter (stock_of_user other) l.
Proof.
  intros Hne. induction l as [|s l IH]; [reflexivity|].
  cbn [filter]. unfold is_stock at 1, stock_of_user at 2.
  destruct (Z.eqb_spec (s_user_id s) other) as [He|He].
  - assert (Hu : (s_user_id s =? user_id) = false)
      by (apply Z.eqb_neq; congruence).
    rewrite Hu, andb_false_r. cbn [negb filter].
    unfold stock_of_user at 1. rewrite (proj2 (Z.eqb_eq _ _) He).
    f_equal. exact IH.
  - destruct (negb _); [cbn [filter]; unfold stock_of_user at 1;
                        rewrite (proj2 (Z.eqb_neq _ _) He)|]; exact IH.
Qed.

Lemma stock_of_user_decrement cond other q s :
  stock_of_user other (decrement cond q s) = stock_of_user other s.
Proof. unfold decrement. destruct (cond s); reflexivity. Qed.

Lemma decrement_other_user stock_id user_id other q s :
  other <> user_id ->
  stock_of_user other s = true ->
  decrement (is_stock stock_id user_id) q s = s.
Proof.
  intros Hne Ho. apply Z.eqb_eq in Ho.
  unfold decrement, is_stock.
  assert (Hu : (s_user_id s =? user_id) = false)
    by (apply Z.eqb_neq; congruence).
  rewrite Hu, andb_false_r. reflexivity.
Qed.

Lemma filter_other_user_decrement stock_id user_id other q l :
  other <> user_id ->
  filter (stock_of_user other)
         (map (decrement (is_stock stock_id user_id) q) l) =
  filter (stock_of_user other) l.
Proof.
  intros Hne. induction l as [|s l IH]; [reflexivity|].
  cbn [map filter]. rewrite stock_of_user_decrement.
  destruct (stock_of_user other s) eqn:E; [|exact IH].
  rewrite (decrement_other_user _ _ _ _ _ Hne E). f_equal. exact IH.
Qed.

Lemma filter_is_stock_of_user stock_id user_id l :
  filter (is_stock stock_id user_id) l =
  filter (fun s => s_stock_id s =? stock_id) (filter (stock_of_user user_id) l).
Proof.
  induction l as [|s l IH]; [reflexivity|].
  cbn [filter]. unfold is_stock at 1, stock_of_user at 1.
  destruct (s_user_id s =? user_id); cbn [filter].
  - rewrite andb_true_r. destruct (s_stock_id s =? stock_id); rewrite IH;
      reflexivity.
  - rewrite andb_false_r. exact IH.
Qed.

(** The answer of [remove_stock] is read off the caller's own stock rows:
    two stores that agree on them (and raise the same errors) get the same
    answer. *)
Lemma remove_stock_reads_own_rows stock_id quantity user_id w1 w2 :
  stocks_of user_id (db w1) = stocks_of user_id (db w2) ->
  faults w1 = faults w2 ->
  fst (remove_stock stock_id quantity user_id w1) =
  fst (remove_stock stock_id quantity user_id w2).
Proof.
  unfold stocks_of. intros Hs Hf.
  unfold remove_stock, bind, execute_query. rewrite Hf.
  destruct (faults w2) as [|[m|] fs]; cbn [run_stmt];
    rewrite ?filter_is_stock_of_user, ?Hs; try reflexivity;
    (destruct (filter (fun s => s_stock_id s =? stock_id)
                      (filter (stock_of_user user_id) (stocks (db w2))))
       as [|s rest]; [reflexivity|]);
    cbn -[Z.ltb Z.eqb str];
    destruct (s_stock_quantity s <? quantity); try reflexivity;
    destruct (s_stock_quantity s =? quantity); try reflexivity;
    destruct fs as [|[m'|] fs]; reflexivity.
Qed.

(** Every store [add_sale] can leave behind: the products are kept; the
    sales are kept, or the caller's sale is added; the stocks are kept, or
    the check has passed and every lot of the product is decremented. *)
Lemma add_sale_db sale w :
  products (db (snd (add_sale sale w))) = products (db w) /\
  (sales (db (snd (add_sale sale w))) = sales (db w) \/
   sales (db (snd (add_sale sale w))) =
     (sales (db w) ++
      [mkSaleRow (next_sale_id (db w)) (sale_product_id sale)
                 (quantity_sold sale) (sale_user_id sale) (clock w)])%list) /\
  (stocks (db (snd (add_sale sale w))) = stocks (db w) \/
   exists s, checked_stock (sale_product_id sale) (db w) = Some s /\
             quantity_sold sale <= s_stock_quantity s /\
             stocks (db (snd (add_sale sale w))) =
               map (decrement (of_product (sale_product_id sale))
                              (quantity_sold sale))
                   (stocks (db w))).
Proof.
  unfold add_sale, bind, checked_stock.
  destruct (execute_query_cases
              (SelectStockQuantityByProduct (sale_product_id sale)) w)
    as [(m & ->)| ->]; [cbn; auto|].
  cbn [run_stmt fst snd].
  destruct (filter (of_product (sale_product_id sale)) (stocks (db w)))
    as [|s rest]; [cbn; auto|].
  cbn -[Z.ltb execute_query].
  destruct (Z.ltb_spec (s_stock_quantity s) (quantity_sold sale)) as [Hlt|Hge];
    [cbn; auto|].
  destruct (execute_query_cases
              (InsertSale (sale_product_id sale) (quantity_sold sale)
                          (sale_user_id sale))
              (mkWorld (db w) (clock w) (tl (faults w))))
    as [(m & ->)| ->];
    cbn [run_stmt fst snd db clock faults];
    match goal with
    | |- context [execute_query ?st ?w'] =>
        destruct (execute_query_cases st w') as [(m' & ->)| ->]
    end; cbn; repeat split; auto; right; exists s; auto.
Qed.

(** C8, as the code has it: [remove_stock] run for a user leaves every
    product, stock and sale row of any other user as it was, and its answer
    is read off the caller's own stock rows; [add_sale] run for a user
    leaves the products and the sale rows of any other user as they were. *)
Theorem remove_stock_scoped_by_user stock_id quantity userA w :
  leaves_others_untouched (remove_stock stock_id quantity userA) userA w /\
  (forall w2,
     stocks_of userA (db w2) = stocks_of userA (db w) ->
     faults w2 = faults w ->
     fst (remove_stock stock_id quantity userA w2) =
     fst (remove_stock stock_id quantity userA w)) /\
  (forall sale userB,
     sale_user_id sale = userA -> userB <> userA ->
     products_of userB (db (snd (add_sale sale w))) = products_of userB (db w) /\
     sales_of userB (db (snd (add_sale sale w))) = sales_of userB (db w)).
Proof.
  split; [|split].
  - intros other Hne. unfold products_of, stocks_of, sales_of.
    destruct (remove_stock_db stock_id quantity userA w)
      as [-> | [(s & _ & _ & ->) | (s & _ & _ & ->)]];
      cbn [set_stocks products stocks sales]; repeat split.
    + apply filter_other_user_delete. exact Hne.
    + apply filter_other_user_decrement. exact Hne.
  - intros w2 Hs Hf. apply remove_stock_reads_own_rows; assumption.
  - intros sale userB Hu Hne. unfold products_of, sales_of.
    destruct (add_sale_db sale w) as (-> & [-> | ->] & _);
      split; try reflexivity.
    rewrite filter_app. cbn [filter l_user_id].
    rewrite Hu, (proj2 (Z.eqb_neq userA userB)) by congruence.
    apply app_nil_r.
Qed.

Lemma remove_stock_scoped_by_user_witness :
  let w := exec (add_stock (mkStock 1 6 738020 1)) (two_lots 2 5 4) in
  stocks_of 2 (db (snd (remove_stock 3 2 1 w))) = stocks_of 2 (db w) /\
  stocks_of 2 (db w) = [mkStockRow 1 1 5 738003 2; mkStockRow 2 1 4 738010 2] /\
  stocks_of 1 (db (snd (remove_stock 3 2 1 w))) = [mkStockRow 3 1 4 738020 1].
Proof.
  destruct (remove_stock_scoped_by_user 3 2 1
              (exec (add_stock (mkStock 1 6 738020 1)) (two_lots 2 5 4)))
    as (H & _).
  destruct (H 2) as (_ & H2 & _).
  - discriminate.
  - split; [exact H2|]. split; reflexivity.
Defined.

(** C8 does not hold of [add_sale] and [delete_product]: a sale recorded for
    user 1 takes 3 off both lots of user 2, and [delete_product], which is
    given no user, deletes the product and the lots of user 2. *)
Lemma cross_user_writes :
  let w := two_lots 2 5 4 in
  stocks_of 2 (db w) = [mkStockRow 1 1 5 738003 2; mkStockRow 2 1 4 738010 2] /\
  stocks_of 2 (db (snd (add_sale (mkSale 1 3 1) w))) =
    [mkStockRow 1 1 2 738003 2; mkStockRow 2 1 1 738010 2] /\
  ~ leaves_others_untouched (add_sale (mkSale 1 3 1)) 1 w /\
  stocks_of 2 (db (snd (delete_product 1 w))) = [] /\
  products_of 2 (db (snd (delete_product 1 w))) = [] /\
  ~ leaves_others_untouched (delete_product 1) 1 w.
Proof.
  cbv zeta. split; [reflexivity|]. split; [reflexivity|]. split.
  - intros H. destruct (H 2) as (_ & H2 & _); [discriminate|].
    vm_compute in H2. discriminate.
  - split; [reflexivity|]. split; [reflexivity|].
    intros H. destruct (H 2) as (_ & H2 & _); [discriminate|].
    vm_compute in H2. discriminate.
Qed.

(** ** Where the read-check does guard the decrement *)

Lemma NoDup_key_eq {A} (f : A -> Z) (l : list A) x y :
  NoDup (map f l) -> In x l -> In y l -> f x = f y -> x = y.
Proof.
  induction l as [|a l IH]; intros Hnd Hx Hy Hf; [destruct Hx|].
  cbn [map] in Hnd. inversion Hnd as [|k ks Hnotin Hnd']; subst.
  destruct Hx as [->|Hx], Hy as [->|Hy].
  - reflexivity.
  - exfalso. apply Hnotin. rewrite Hf. apply in_map. exact Hy.
  - exfalso. apply Hnotin. rewrite <- Hf. apply in_map. exact Hx.
  - apply IH; assumption.
Qed.

Lemma NoDup_map_filter {A} (f : A -> Z) (g : A -> bool) (l : list A) :
  NoDup (map f l) -> NoDup (map f (filter g l)).
Proof.
  induction l as [|a l IH]; intros Hnd; [constructor|].
  cbn [map] in Hnd. inversion Hnd as [|k ks Hnotin Hnd']; subst.
  cbn [filter]. destruct (g a); [|apply IH; exact Hnd'].
  cbn [map]. constructor; [|apply IH; exact Hnd'].
  intros Hin. apply Hnotin. apply in_map_iff in Hin.
  destruct Hin as (x & Hx & Hin). apply filter_In in Hin.
  rewrite <- Hx. apply in_map. tauto.
Qed.

Lemma map_stock_id_decrement cond q l :
  map s_stock_id (map (decrement cond q) l) = map s_stock_id l.
Proof.
  rewrite map_map. apply map_ext. intros s.
  unfold decrement. destruct (cond s); reflexivity.
Qed.

(** [remove_stock] compares the quantity with the one row it then changes:
    where stock ids are keys, quantities stay non-negative, whatever the
    store does with the statements. *)
Lemma remove_stock_keeps_non_negative stock_id quantity user_id w :
  stock_ids_unique (db w) ->
  non_negative (db w) ->
  stock_ids_unique (db (snd (remove_stock stock_id quantity user_id w))) /\
  non_negative (db (snd (remove_stock stock_id quantity user_id w))).
Proof.
  unfold stock_ids_unique, non_negative. intros Hu Hn.
  destruct (remove_stock_db stock_id quantity user_id w)
    as [-> | [(s & _ & _ & ->) | (s & Hs & Hlt & ->)]];
    cbn [set_stocks stocks].
  - auto.
  - split; [apply NoDup_map_filter; exact Hu|].
    apply Forall_forall. intros r Hin. apply filter_In in Hin.
    rewrite Forall_forall in Hn. apply Hn. tauto.
  - split; [rewrite map_stock_id_decrement; exact Hu|].
    apply Forall_forall. intros r' Hin. apply in_map_iff in Hin.
    destruct Hin as (r & <- & Hin).
    rewrite Forall_forall in Hn.
    unfold decrement. destruct (is_stock stock_id user_id r) eqn:E;
      [|apply Hn; exact Hin].
    destruct (find_stock_In _ _ _ _ Hs) as (Hsin & Hsid & _).
    apply andb_true_iff in E. destruct E as (E & _). apply Z.eqb_eq in E.
    assert (r = s) by (apply (NoDup_key_eq s_stock_id (stocks (db w)));
                       [assumption..|congruence]).
    subst r. cbn. lia.
Qed.

Lemma remove_stock_sequence_non_negative ops w :
  Forall is_remove_stock ops ->
  stock_ids_unique (db w) ->
  non_negative (db w) ->
  non_negative (db (run_ops ops w)).
Proof.
  intros Hops. revert w. induction Hops as [|o ops Ho _ IH]; intros w Hu Hn;
    [exact Hn|].
  destruct o as [sale|stock_id quantity user_id]; [destruct Ho|].
  cbn [run_ops run_op]. unfold exec.
  destruct (remove_stock_keeps_non_negative stock_id quantity user_id w Hu Hn).
  apply IH; assumption.
Qed.

(** [add_sale] guards its decrement when the product is held in one lot. *)
Lemma add_sale_one_lot_non_negative sale w s :
  filter (of_product (sale_product_id sale)) (stocks (db w)) = [s] ->
  non_negative (db w) ->
  non_negative (db (snd (add_sale sale w))).
Proof.
  unfold non_negative. intros Hone Hn.
  destruct (add_sale_db sale w) as (_ & _ & [-> | (s' & Hs' & Hle & ->)]);
    [exact Hn|].
  unfold checked_stock in Hs'. rewrite Hone in Hs'. injection Hs' as <-.
  apply Forall_forall. intros r' Hin. apply in_map_iff in Hin.
  destruct Hin as (r & <- & Hin).
  rewrite Forall_forall in Hn.
  unfold decrement. destruct (of_product (sale_product_id sale) r) eqn:E;
    [|apply Hn; exact Hin].
  assert (Hr : In r (filter (of_product (sale_product_id sale)) (stocks (db w))))
    by (apply filter_In; auto).
  rewrite Hone in Hr. destruct Hr as [<-|[]]. cbn. lia.
Qed.

(** ** Further behaviour of the stock handlers *)

Lemma remove_stock_sequence_non_negative_witness :
  non_negative
    (db (run_ops [RemoveStock 1 3 1; RemoveStock 2 1 1; RemoveStock 1 5 1]
                 (two_lots 1 5 1))).
Proof.
  apply (remove_stock_sequence_non_negative
           [RemoveStock 1 3 1; RemoveStock 2 1 1; RemoveStock 1 5 1]
           (two_lots 1 5 1)).
  - repeat constructor.
  - unfold stock_ids_unique. vm_compute.
    repeat constructor; simpl; intuition discriminate.
  - unfold non_negative. vm_compute stocks.
    repeat constructor; discriminate.
Defined.

Lemma add_sale_one_lot_non_negative_witness :
  non_negative (db (snd (add_sale (mkSale 10 5 7) (one_lot 5)))).
Proof.
  apply (add_sale_one_lot_non_negative (mkSale 10 5 7) (one_lot 5)
           (mkStockRow 1 10 5 738003 7)).
  - reflexivity.
  - unfold non_negative. vm_compute stocks.
    repeat constructor; discriminate.
Defined.

Lemma find_stock_None stock_id user_id d :
  (forall s, In s (stocks d) ->
             s_stock_id s <> stock_id \/ s_user_id s <> user_id) ->
  find_stock stock_id user_id d = None.
Proof.
  intros H. unfold find_stock.
  replace (filter (is_stock stock_id user_id) (stocks d)) with (@nil StockRow);
    [reflexivity|].
  symmetry. apply filter_nil_iff. intros s Hin. unfold is_stock.
  destruct (H s Hin) as [Hne|Hne]; apply Z.eqb_neq in Hne; rewrite Hne;
    [reflexivity|apply andb_false_r].
Qed.

(** [remove_stock] for a [stock_id] the caller owns no row of (no such row,
    or a row of another user) fails with status 404 and leaves the store as
    it was. *)
Theorem remove_stock_unknown stock_id quantity user_id w :
  calm 1 (faults w) ->
  (forall s, In s (stocks (db w)) ->
             s_stock_id s <> stock_id \/ s_user_id s <> user_id) ->
  fst (remove_stock stock_id quantity user_id w) =
    inl (HTTPException 404 "Stock not found for this product and user") /\
  db (snd (remove_stock stock_id quantity user_id w)) = db w.
Proof.
  intros Hc Hnone.
  rewrite (remove_stock_not_found stock_id quantity user_id w Hc
             (find_stock_None _ _ _ Hnone)).
  split; reflexivity.
Qed.

Lemma remove_stock_unknown_witness :
  fst (remove_stock 1 2 8 (one_lot 2)) =
    inl (HTTPException 404 "Stock not found for this product and user") /\
  db (snd (remove_stock 1 2 8 (one_lot 2))) = db (one_lot 2).
Proof.
  apply (remove_stock_unknown 1 2 8 (one_lot 2)).
  - exact I.
  - intros s [<-|[]]. right. discriminate.
Defined.

(** A store error on the stock read of [add_sale] is not taken for missing
    stock: the handler ends in [KeyError] instead of status 400, and no
    statement is sent after the read. *)
Theorem add_sale_read_error sale w msg fs :
  faults w = Some msg :: fs ->
  add_sale sale w = (inl KeyError, mkWorld (db w) (clock w) fs).
Proof.
  intros H. unfold add_sale, bind, execute_query. rewrite H. reflexivity.
Qed.

Lemma add_sale_read_error_witness :
  add_sale (mkSale 10 3 7)
    (mkWorld (db (one_lot 5)) 0 [Some "connection refused"; None]) =
  (inl KeyError, mkWorld (db (one_lot 5)) 0 [None]).
Proof.
  apply (add_sale_read_error (mkSale 10 3 7)
           (mkWorld (db (one_lot 5)) 0 [Some "connection refused"; None])
           "connection refused" [None]).
  reflexivity.
Defined.

(** A store error on the read of [remove_stock] ends the handler in
    [KeyError] instead of status 404, and no statement is sent after the
    read. *)
Theorem remove_stock_read_error stock_id quantity user_id w msg fs :
  faults w = Some msg :: fs ->
  remove_stock stock_id quantity user_id w =
    (inl KeyError, mkWorld (db w) (clock w) fs).
Proof.
  intros H. unfold remove_stock, bind, execute_query. rewrite H. reflexivity.
Qed.

Lemma remove_stock_read_error_witness :
  remove_stock 1 2 7
    (mkWorld (db (one_lot 5)) 0 [Some "connection refused"; None]) =
  (inl KeyError, mkWorld (db (one_lot 5)) 0 [None]).
Proof.
  apply (remove_stock_read_error 1 2 7
           (mkWorld (db (one_lot 5)) 0 [Some "connection refused"; None])
           "connection refused" [None]).
  reflexivity.
Defined.

(** A store error on the existence check of [delete_product] is taken for
    "the product exists": the handler raises no 404, sends both deletes and
    answers success, also for an id no product carries. *)
Theorem delete_product_check_error product_id w msg fs :
  faults w = Some msg :: fs ->
  calm 2 fs ->
  fst (delete_product product_id w) =
    inr (Message "Product and associated stocks deleted successfully") /\
  stocks (db (snd (delete_product product_id w))) =
    filter (fun s => negb (s_product_id s =? product_id)) (stocks (db w)) /\
  products (db (snd (delete_product product_id w))) =
    filter (fun p => negb (p_product_id p =? product_id)) (products (db w)).
Proof.
  intros H Hc. unfold delete_product, bind.
  assert (E : execute_query (SelectProductId product_id) w =
              (inr (ErrorDict msg), mkWorld (db w) (clock w) fs))
    by (unfold execute_query; rewrite H; reflexivity).
  rewrite E. cbn [truthy negb].
  rewrite execute_query_calm_tl by (apply calm_S; exact Hc).
  cbn [run_stmt fst snd db clock faults].
  rewrite execute_query_calm_tl by (apply calm_tl; exact Hc).
  repeat split.
Qed.

Lemma delete_product_check_error_witness :
  fst (delete_product 99
         (mkWorld (db (one_lot 5)) 0 [Some "connection refused"])) =
    inr (Message "Product and associated stocks deleted successfully") /\
  db (snd (delete_product 99
             (mkWorld (db (one_lot 5)) 0 [Some "connection refused"]))) =
    db (one_lot 5).
Proof.
  destruct (delete_product_check_error 99
              (mkWorld (db (one_lot 5)) 0 [Some "connection refused"])
              "connection refused" [])
    as (H1 & _).
  - reflexivity.
  - exact I.
  - split; [exact H1|reflexivity].
Defined.

(** The results of the two deletes of [delete_product] are dropped: when
    the store refuses the delete of the stock rows and runs the delete of
    the product, the handler answers success and every lot of the product
    stays, referencing a product that is gone. *)
Theorem delete_product_leaves_orphans product_id w msg fs :
  faults w = None :: Some msg :: fs ->
  calm 1 fs ->
  (exists p, In p (products (db w)) /\ p_product_id p = product_id) ->
  fst (delete_product product_id w) =
    inr (Message "Product and associated stocks deleted successfully") /\
  stocks (db (snd (delete_product product_id w))) = stocks (db w) /\
  forall p, In p (products (db (snd (delete_product product_id w)))) ->
            p_product_id p <> product_id.
Proof.
  intros H Hc (p & Hin & Hp). unfold delete_product, bind.
  assert (E1 : execute_query (SelectProductId product_id) w =
               (inr (Rows (map product_id_row
                             (filter (is_product product_id) (products (db w))))),
                mkWorld (db w) (clock w) (Some msg :: fs)))
    by (unfold execute_query; rewrite H; reflexivity).
  rewrite E1.
  destruct (filter (is_product product_id) (products (db w))) as [|x l] eqn:E.
  - exfalso. pose proof (proj1 (filter_nil_iff _ _) E p Hin) as Hf.
    unfold is_product in Hf. rewrite Hp, Z.eqb_refl in Hf. discriminate.
  - cbn [map truthy negb].
    assert (E2 : execute_query (DeleteStocksByProduct product_id)
                   (mkWorld (db w) (clock w) (Some msg :: fs)) =
                 (inr (ErrorDict msg), mkWorld (db w) (clock w) fs))
      by reflexivity.
    rewrite E2.
    rewrite execute_query_calm_tl by exact Hc.
    cbn [run_stmt fst snd db clock faults ret set_products stocks products].
    split; [reflexivity|]. split; [reflexivity|].
    intros q Hq. apply filter_In in Hq. destruct Hq as (_ & Hq).
    unfold is_product in Hq. apply negb_true_iff, Z.eqb_neq in Hq. exact Hq.
Qed.

Lemma delete_product_leaves_orphans_witness :
  let w := mkWorld (db (one_lot 5)) 0 [None; Some "lock wait timeout"] in
  fst (delete_product 10 w) =
    inr (Message "Product and associated stocks deleted successfully") /\
  stocks (db (snd (delete_product 10 w))) = [mkStockRow 1 10 5 738003 7] /\
  products (db (snd (delete_product 10 w))) = [].
Proof.
  destruct (delete_product_leaves_orphans 10
              (mkWorld (db (one_lot 5)) 0 [None; Some "lock wait timeout"])
              "lock wait timeout" [])
    as (H1 & H2 & _).
  - reflexivity.
  - exact I.
  - exists (mkProductRow 10 "milk" "dairy" 1.5%float 7).
    split; [left; reflexivity|reflexivity].
  - split; [exact H1|]. split; [rewrite H2|]; reflexivity.
Defined.

(** ** Listings *)

Lemma get_stocks_calm user_id w :
  calm 1 (faults w) ->
  get_stocks user_id w =
    (inr (RowList (join_products (products (db w))
                     (filter (stock_of_user user_id) (stocks (db w))))),
     mkWorld (db w) (clock w) (tl (faults w))).
Proof.
  intros Hc. unfold get_stocks, bind.
  rewrite execute_query_calm_tl by exact Hc. reflexivity.
Qed.

Lemma get_expiring_stocks_calm user_id days w :
  calm 1 (faults w) ->
  Z.abs (days_or_default days) <= 999999999 ->
  min_ordinal <= today w + days_or_default days <= max_ordinal ->
  get_expiring_stocks user_id days w =
    (inr (RowList (join_products (products (db w))
                     (filter (expiring (today w + days_or_default days) user_id)
                             (stocks (db w))))),
     mkWorld (db w) (clock w) (tl (faults w))).
Proof.
  intros Hc Habs (Hlo & Hhi).
  unfold get_expiring_stocks, bind, datetime_now, timedelta, datetime_add.
  fold (days_or_default days).
  apply Z.leb_le in Habs, Hlo, Hhi. rewrite Habs. cbn [ret].
  rewrite strftime_date_add. fold (today w). rewrite Hlo, Hhi.
  cbn [andb]. unfold ret. cbv beta iota.
  rewrite ?strftime_date_add. fold (today w).
  rewrite execute_query_calm_tl by exact Hc. reflexivity.
Qed.

Lemma join_products_In ps ss row :
  In row (join_products ps ss) <->
  exists s p, In s ss /\ In p ps /\ p_product_id p = s_product_id s /\
              row = stock_view s p.
Proof.
  unfold join_products. rewrite in_flat_map. split.
  - intros (s & Hs & Hrow). apply in_map_iff in Hrow.
    destruct Hrow as (p & <- & Hp). apply filter_In in Hp.
    destruct Hp as (Hp & Hid). apply Z.eqb_eq in Hid. exists s, p. auto.
  - intros (s & p & Hs & Hp & Hid & ->). exists s. split; [exact Hs|].
    apply in_map. apply filter_In. split; [exact Hp|].
    apply Z.eqb_eq. exact Hid.
Qed.

Lemma join_products_incl ps ss ss' :
  incl ss ss' -> incl (join_products ps ss) (join_products ps ss').
Proof.
  intros Hincl row Hin. apply join_products_In in Hin.
  destruct Hin as (s & p & Hs & Hp & Hid & ->).
  apply join_products_In. exists s, p. auto.
Qed.

(** A larger window lists more: every row [get_expiring_stocks] returns for
    [d1] days it returns for any [d2 >= d1] days. *)
Theorem get_expiring_stocks_monotone user_id d1 d2 w :
  calm 1 (faults w) ->
  d1 <= d2 ->
  Z.abs d1 <= 999999999 -> Z.abs d2 <= 999999999 ->
  min_ordinal <= today w + d1 -> today w + d2 <= max_ordinal ->
  exists rows1 rows2,
    fst (get_expiring_stocks user_id (Some d1) w) = inr (RowList rows1) /\
    fst (get_expiring_stocks user_id (Some d2) w) = inr (RowList rows2) /\
    incl rows1 rows2.
Proof.
  intros Hc Hle Ha1 Ha2 Hlo Hhi.
  rewrite (get_expiring_stocks_calm user_id (Some d1) w Hc Ha1)
    by (cbn [days_or_default]; lia).
  rewrite (get_expiring_stocks_calm user_id (Some d2) w Hc Ha2)
    by (cbn [days_or_default]; lia).
  cbn [fst days_or_default]. eexists. eexists.
  split; [reflexivity|]. split; [reflexivity|].
  apply join_products_incl. intros s Hs. apply filter_In in Hs.
  destruct Hs as (Hs & He). apply filter_In. split; [exact Hs|].
  unfold expiring in *. apply andb_true_iff in He. destruct He as (He & Hu).
  rewrite Hu, andb_true_r. apply Z.leb_le in He. apply Z.leb_le. lia.
Qed.

Lemma get_expiring_stocks_monotone_witness :
  exists rows1 rows2,
    fst (get_expiring_stocks 1 (Some 3) (two_lots 1 5 4)) = inr (RowList rows1) /\
    fst (get_expiring_stocks 1 (Some 10) (two_lots 1 5 4)) = inr (RowList rows2) /\
    incl rows1 rows2.
Proof.
  apply (get_expiring_stocks_monotone 1 3 10 (two_lots 1 5 4)).
  - exact I.
  - lia.
  - simpl. lia.
  - simpl. lia.
  - vm_compute. discriminate.
  - vm_compute. discriminate.
Defined.

(** Every row [get_expiring_stocks] returns for a user is a row [get_stocks]
    returns for that user. *)
Theorem get_expiring_stocks_within_get_stocks user_id days w :
  calm 1 (faults w) ->
  Z.abs (days_or_default days) <= 999999999 ->
  min_ordinal <= today w + days_or_default days <= max_ordinal ->
  exists rows all,
    fst (get_expiring_stocks user_id days w) = inr (RowList rows) /\
    fst (get_stocks user_id w) = inr (RowList all) /\
    incl rows all.
Proof.
  intros Hc Ha Hr.
  rewrite (get_expiring_stocks_calm user_id days w Hc Ha Hr).
  rewrite (get_stocks_calm user_id w Hc).
  cbn [fst]. eexists. eexists.
  split; [reflexivity|]. split; [reflexivity|].
  apply join_products_incl. intros s Hs. apply filter_In in Hs.
  destruct Hs as (Hs & He). apply filter_In. split; [exact Hs|].
  unfold expiring in He. apply andb_true_iff in He. tauto.
Qed.

Lemma get_expiring_stocks_within_get_stocks_witness :
  exists rows all,
    fst (get_expiring_stocks 1 None (two_lots 1 5 4)) = inr (RowList rows) /\
    fst (get_stocks 1 (two_lots 1 5 4)) = inr (RowList all) /\
    incl rows all.
Proof.
  apply (get_expiring_stocks_within_get_stocks 1 None (two_lots 1 5 4)).
  - exact I.
  - simpl. lia.
  - split; vm_compute; discriminate.
Defined.

(** A window of more than 999999999 days, or a threshold outside the dates
    [datetime] holds, ends [get_expiring_stocks] in [OverflowError] before
    any statement is sent. *)
Theorem get_expiring_stocks_overflow user_id days w :
  999999999 < Z.abs (days_or_default days) \/
  today w + days_or_default days < min_ordinal \/
  max_ordinal < today w + days_or_default days ->
  get_expiring_stocks user_id days w = (inl OverflowError, w).
Proof.
  intros H.
  unfold get_expiring_stocks, bind, datetime_now, timedelta, datetime_add.
  fold (days_or_default days).
  destruct (Z.leb_spec (Z.abs (days_or_default days)) 999999999) as [Ha|Ha];
    [|reflexivity].
  cbn [ret]. unfold ret. cbv beta iota zeta.
  rewrite ?strftime_date_add. fold (today w).
  destruct (Z.leb_spec min_ordinal (today w + days_or_default days));
    [|reflexivity].
  destruct (Z.leb_spec (today w + days_or_default days) max_ordinal);
    [|reflexivity].
  lia.
Qed.

Lemma get_expiring_stocks_overflow_witness :
  get_expiring_stocks 7 (Some 3000000) (one_lot 5) = (inl OverflowError, one_lot 5).
Proof.
  apply (get_expiring_stocks_overflow 7 (Some 3000000) (one_lot 5)).
  right. right. vm_compute. reflexivity.
Defined.

(** [delete_product] on a stored product and a store that raises no
    error. *)
Lemma delete_product_run product_id w :
  calm 3 (faults w) ->
  (exists p, In p (products (db w)) /\ p_product_id p = product_id) ->
  delete_product product_id w =
    (inr (Message "Product and associated stocks deleted successfully"),
     mkWorld
       (set_products
          (set_stocks (db w)
             (filter (fun s => negb (of_product product_id s)) (stocks (db w))))
          (filter (fun p => negb (is_product product_id p)) (products (db w))))
       (clock w) (tl (tl (tl (faults w))))).
Proof.
  intros Hc (p & Hin & Hp).
  pose proof (calm_tl _ _ Hc) as Hc1. pose proof (calm_tl _ _ Hc1) as Hc2.
  unfold delete_product, bind.
  rewrite execute_query_calm_tl by (do 2 apply calm_S; exact Hc).
  cbn [run_stmt fst snd db clock faults].
  destruct (filter (is_product product_id) (products (db w))) as [|x l] eqn:E.
  - exfalso. pose proof (proj1 (filter_nil_iff _ _) E p Hin) as Hf.
    unfold is_product in Hf. rewrite Hp, Z.eqb_refl in Hf. discriminate.
  - cbn [map truthy negb].
    rewrite execute_query_calm_tl by (apply calm_S; exact Hc1).
    cbn [run_stmt fst snd db clock faults].
    rewrite execute_query_calm_tl by exact Hc2.
    reflexivity.
Qed.

(** After [delete_product], [get_stocks] lists for any user only lots of
    other products: every row it returns is the view of a stock row of the
    user that references a product other than the deleted one. *)
Theorem get_stocks_after_delete_product product_id user_id w :
  calm 4 (faults w) ->
  (exists p, In p (products (db w)) /\ p_product_id p = product_id) ->
  exists rows,
    fst (get_stocks user_id (exec (delete_product product_id) w)) =
      inr (RowList rows) /\
    forall row, In row rows ->
      exists s p,
        In s (stocks (db w)) /\ In p (products (db w)) /\
        s_user_id s = user_id /\ s_product_id s <> product_id /\
        p_product_id p = s_product_id s /\
        row = [ ("stock_id", VInt (s_stock_id s));
                ("product_name", VStr (p_product_name p));
                ("stock_quantity", VInt (s_stock_quantity s));
                ("expiry_date", VDate (s_expiry_date s)) ].
Proof.
  intros Hc Hex. unfold exec.
  rewrite (delete_product_run product_id w (calm_S _ _ Hc) Hex). cbn [snd].
  rewrite get_stocks_calm
    by (cbn [faults]; do 3 apply calm_tl in Hc; exact Hc).
  cbn [fst db set_products set_stocks products stocks].
  eexists. split; [reflexivity|].
  intros row Hin. apply join_products_In in Hin.
  destruct Hin as (s & p & Hs & Hp & Hid & ->).
  apply filter_In in Hs. destruct Hs as (Hs & Hu).
  apply filter_In in Hs. destruct Hs as (Hs & Hne).
  apply filter_In in Hp. destruct Hp as (Hp & _).
  unfold of_product in Hne. apply negb_true_iff, Z.eqb_neq in Hne.
  apply Z.eqb_eq in Hu.
  exists s, p. repeat split; assumption.
Qed.

Lemma get_stocks_after_delete_product_witness :
  exists rows,
    fst (get_stocks 1 (exec (delete_product 1) (two_lots 1 5 4))) =
      inr (RowList rows) /\
    rows = [].
Proof.
  destruct (get_stocks_after_delete_product 1 1 (two_lots 1 5 4))
    as (rows & H1 & _).
  - exact I.
  - exists (mkProductRow 1 "milk" "dairy" 1.5%float 1).
    split; [left; reflexivity|reflexivity].
  - exists rows. split; [exact H1|].
    vm_compute in H1. injection H1 as <-. reflexivity.
Defined.

Lemma join_products_app ps ss ss' :
  join_products ps (ss ++ ss') = (join_products ps ss ++ join_products ps ss')%list.
Proof. unfold join_products. apply flat_map_app. Qed.

(** A lot added with [add_stock] for a stored product is listed by
    [get_stocks] for its owner, after the rows listed before, under the id
    the store gave it and the name of its product. *)
Theorem add_stock_then_get_stocks stock w p :
  calm 2 (faults w) ->
  product_ids_unique (db w) ->
  In p (products (db w)) ->
  p_product_id p = stock_product_id stock ->
  fst (add_stock stock w) = inr (Message "Stock added successfully") /\
  exists rows,
    fst (get_stocks (stock_user_id stock) w) = inr (RowList rows) /\
    fst (get_stocks (stock_user_id stock) (exec (add_stock stock) w)) =
      inr (RowList
             (rows ++
              [ [ ("stock_id", VInt (next_stock_id (db w)));
                  ("product_name", VStr (p_product_name p));
                  ("stock_quantity", VInt (stock_quantity stock));
                  ("expiry_date", VDate (expiry_date stock)) ] ])%list).
Proof.
  intros Hc Hkeys Hin Hid.
  assert (E : add_stock stock w =
              (inr (Message "Stock added successfully"),
               mkWorld
                 (mkDB (products (db w))
                       (stocks (db w) ++
                        [mkStockRow (next_stock_id (db w))
                                    (stock_product_id stock)
                                    (stock_quantity stock) (expiry_date stock)
                                    (stock_user_id stock)])
                       (sales (db w)) (next_product_id (db w))
                       (next_stock_id (db w) + 1) (next_sale_id (db w)))
                 (clock w) (tl (faults w)))).
  { unfold add_stock, bind.
    rewrite execute_query_calm_tl by (apply calm_S; exact Hc). reflexivity. }
  unfold exec. rewrite E. cbn [fst snd]. split; [reflexivity|].
  rewrite (get_stocks_calm _ w (calm_S _ _ Hc)).
  rewrite get_stocks_calm by (cbn [faults]; apply calm_tl; exact Hc).
  cbn [fst db products stocks].
  eexists. split; [reflexivity|]. do 2 f_equal.
  rewrite filter_app, join_products_app. f_equal.
  cbn [filter]. unfold stock_of_user at 1. cbn [s_user_id].
  rewrite Z.eqb_refl. unfold join_products. cbn [flat_map s_product_id].
  rewrite <- Hid, (filter_is_product_key _ p Hkeys Hin). reflexivity.
Qed.

Lemma add_stock_then_get_stocks_witness :
  fst (get_stocks 7 (exec (add_stock (mkStock 10 3 738020 7)) (one_lot 5))) =
    inr (RowList
           [ [ ("stock_id", VInt 1); ("product_name", VStr "milk");
               ("stock_quantity", VInt 5); ("expiry_date", VDate 738003) ];
             [ ("stock_id", VInt 2); ("product_name", VStr "milk");
               ("stock_quantity", VInt 3); ("expiry_date", VDate 738020) ] ]).
Proof.
  destruct (add_stock_then_get_stocks (mkStock 10 3 738020 7) (one_lot 5)
              (mkProductRow 10 "milk" "dairy" 1.5%float 7))
    as (_ & rows & H1 & H2).
  - exact I.
  - unfold product_ids_unique. vm_compute. repeat constructor. intros [].
  - left. reflexivity.
  - reflexivity.
  - vm_compute in H1. injection H1 as <-. exact H2.
Defined.

(** How a store error on their one statement comes out of the handlers
    that do not raise: [add_product], [add_stock] and [get_expiring_stocks]
    return the error text of the store as their response, [get_stocks]
    returns the fixed text "Error fetching stocks"; nothing is written. *)
Theorem store_error_responses w msg fs :
  faults w = Some msg :: fs ->
  (forall product,
     add_product product w =
       (inr (ErrorBody msg), mkWorld (db w) (clock w) fs)) /\
  (forall stock,
     add_stock stock w = (inr (ErrorBody msg), mkWorld (db w) (clock w) fs)) /\
  (forall user_id,
     get_stocks user_id w =
       (inr (ErrorBody "Error fetching stocks"), mkWorld (db w) (clock w) fs)) /\
  (forall user_id days,
     Z.abs (days_or_default days) <= 999999999 ->
     min_ordinal <= today w + days_or_default days <= max_ordinal ->
     get_expiring_stocks user_id days w =
       (inr (ErrorBody msg), mkWorld (db w) (clock w) fs)).
Proof.
  intros H. repeat split; intros.
  - unfold add_product, bind, execute_query. rewrite H. reflexivity.
  - unfold add_stock, bind, execute_query. rewrite H. reflexivity.
  - unfold get_stocks, bind, execute_query. rewrite H. reflexivity.
  - match goal with
    | Ha : Z.abs _ <= _, Hr : _ <= _ <= _ |- _ =>
        destruct Hr as (Hlo & Hhi); apply Z.leb_le in Ha, Hlo, Hhi
    end.
    unfold get_expiring_stocks, bind, datetime_now, timedelta, datetime_add.
    fold (days_or_default days). rewrite H0. cbn [ret].
    rewrite strftime_date_add. fold (today w). rewrite Hlo, Hhi.
    cbn [andb]. unfold ret. cbv beta iota.
    unfold execute_query. rewrite H. reflexivity.
Qed.

Lemma store_error_responses_witness :
  let w := mkWorld (db (one_lot 5)) (clock (one_lot 5)) [Some "connection refused"] in
  add_stock (mkStock 10 3 738020 7) w =
    (inr (ErrorBody "connection refused"), one_lot 5) /\
  get_stocks 7 w = (inr (ErrorBody "Error fetching stocks"), one_lot 5) /\
  get_expiring_stocks 7 None w =
    (inr (ErrorBody "connection refused"), one_lot 5).
Proof.
  destruct (store_error_responses
              (mkWorld (db (one_lot 5)) (clock (one_lot 5))
                       [Some "connection refused"])
              "connection refused" [] eq_refl)
    as (_ & H2 & H3 & H4).
  split; [apply H2|]. split; [apply H3|].
  apply H4.
  - simpl. lia.
  - split; vm_compute; discriminate.
Defined.

(** ** Quantities the handlers do not validate *)

(** [add_sale] past its check, on a store that raises no error. *)
Lemma add_sale_run sale w s :
  calm 3 (faults w) ->
  checked_stock (sale_product_id sale) (db w) = Some s ->
  quantity_sold sale <= s_stock_quantity s ->
  add_sale sale w =
    (inr (Message "Sale added and stock updated successfully"),
     mkWorld
       (mkDB (products (db w))
             (map (decrement (of_product (sale_product_id sale))
                             (quantity_sold sale))
                  (stocks (db w)))
             (sales (db w) ++
              [mkSaleRow (next_sale_id (db w)) (sale_product_id sale)
                         (quantity_sold sale) (sale_user_id sale) (clock w)])
             (next_product_id (db w)) (next_stock_id (db w))
             (next_sale_id (db w) + 1))
       (clock w) (tl (tl (tl (faults w))))).
Proof.
  intros Hc Hs Hle.
  rewrite (add_sale_read_some sale w s (calm_S _ _ (calm_S _ _ Hc)) Hs).
  assert (H : (s_stock_quantity s <? quantity_sold sale) = false)
    by (apply Z.ltb_ge; lia).
  rewrite H. unfold bind.
  pose proof (calm_tl _ _ Hc) as Hc1. pose proof (calm_tl _ _ Hc1) as Hc2.
  rewrite execute_query_calm_tl by (apply calm_S; exact Hc1).
  cbn [run_stmt fst snd db clock faults].
  rewrite execute_query_calm_tl by exact Hc2.
  reflexivity.
Qed.

(** [remove_stock] does not look at the sign of [quantity]: a negative
    quantity passes the check against a non-negative row and raises the
    quantity of the row. *)
Theorem remove_stock_negative_quantity stock_id quantity user_id w s :
  calm 2 (faults w) ->
  find_stock stock_id user_id (db w) = Some s ->
  quantity < 0 ->
  0 <= s_stock_quantity s ->
  fst (remove_stock stock_id quantity user_id w) =
    inr (Message ("Stock reduced by " ++ str quantity
                  ++ ". Remaining stock: " ++ str (s_stock_quantity s - quantity))) /\
  exists s',
    find_stock stock_id user_id (db (snd (remove_stock stock_id quantity user_id w)))
      = Some s' /\
    s_stock_quantity s' = s_stock_quantity s - quantity /\
    s_stock_quantity s < s_stock_quantity s'.
Proof.
  intros Hc Hf Hneg Hpos.
  destruct (remove_stock_read 1 stock_id quantity user_id w s Hc Hf)
    as (fs & Hfs & ->).
  assert (H1 : (s_stock_quantity s <? quantity) = false) by (apply Z.ltb_ge; lia).
  assert (H2 : (s_stock_quantity s =? quantity) = false) by (apply Z.eqb_neq; lia).
  rewrite H1, H2. unfold bind.
  rewrite execute_query_calm_tl by exact Hfs.
  cbn [run_stmt fst snd db clock faults ret]. split; [reflexivity|].
  exists (set_quantity s (s_stock_quantity s - quantity)).
  split; [|cbn; lia].
  unfold find_stock. cbn [stocks set_stocks].
  rewrite (filter_decrement (is_stock stock_id user_id));
    [|intros; apply is_stock_set_quantity].
  rewrite hd_error_map. fold (find_stock stock_id user_id (db w)).
  rewrite Hf. reflexivity.
Qed.

Lemma remove_stock_negative_quantity_witness :
  fst (remove_stock 1 (-4) 7 (one_lot 5)) =
    inr (Message "Stock reduced by -4. Remaining stock: 9") /\
  stocks (db (snd (remove_stock 1 (-4) 7 (one_lot 5)))) =
    [mkStockRow 1 10 9 738003 7].
Proof.
  destruct (remove_stock_negative_quantity 1 (-4) 7 (one_lot 5)
              (mkStockRow 1 10 5 738003 7))
    as (H1 & _).
  - exact I.
  - reflexivity.
  - reflexivity.
  - discriminate.
  - split; [exact H1|reflexivity].
Defined.

(** [add_sale] does not look at the sign of [quantity_sold]: a negative
    quantity passes the check against a non-negative row, is recorded as a
    sale, and raises the total held of the product. *)
Theorem add_sale_negative_quantity sale w s :
  calm 3 (faults w) ->
  checked_stock (sale_product_id sale) (db w) = Some s ->
  quantity_sold sale < 0 ->
  0 <= s_stock_quantity s ->
  fst (add_sale sale w) =
    inr (Message "Sale added and stock updated successfully") /\
  sales (db (snd (add_sale sale w))) =
    (sales (db w) ++
     [mkSaleRow (next_sale_id (db w)) (sale_product_id sale) (quantity_sold sale)
                (sale_user_id sale) (clock w)])%list /\
  total_quantity (sale_product_id sale) (db w) <
  total_quantity (sale_product_id sale) (db (snd (add_sale sale w))).
Proof.
  intros Hc Hs Hneg Hpos.
  assert (Hle : quantity_sold sale <= s_stock_quantity s) by lia.
  destruct (add_sale_effect sale w s Hc Hs Hle) as (Hsales & _ & Htotal).
  rewrite Htotal, Hsales.
  rewrite (add_sale_run sale w s Hc Hs Hle). cbn [fst].
  repeat split.
  destruct (checked_stock_Some _ _ _ Hs) as (rest & E). rewrite E.
  cbn [List.length]. nia.
Qed.

Lemma add_sale_negative_quantity_witness :
  fst (add_sale (mkSale 10 (-4) 7) (one_lot 5)) =
    inr (Message "Sale added and stock updated successfully") /\
  stocks (db (snd (add_sale (mkSale 10 (-4) 7) (one_lot 5)))) =
    [mkStockRow 1 10 9 738003 7].
Proof.
  destruct (add_sale_negative_quantity (mkSale 10 (-4) 7) (one_lot 5)
              (mkStockRow 1 10 5 738003 7))
    as (H1 & _).
  - exact I.
  - reflexivity.
  - reflexivity.
  - discriminate.
  - split; [exact H1|reflexivity].
Defined.

(** A sale of the whole checked lot leaves the row in the table at
    quantity 0 ([add_sale] never deletes), and every later sale of a
    positive quantity of the product then fails with status 400. *)
Theorem add_sale_leaves_empty_lot sale w s :
  calm 4 (faults w) ->
  checked_stock (sale_product_id sale) (db w) = Some s ->
  quantity_sold sale = s_stock_quantity s ->
  checked_stock (sale_product_id sale) (db (snd (add_sale sale w))) =
    Some (set_quantity s 0) /\
  forall sale',
    sale_product_id sale' = sale_product_id sale ->
    0 < quantity_sold sale' ->
    fst (add_sale sale' (snd (add_sale sale w))) =
      inl (HTTPException 400 "Insufficient stock available").
Proof.
  intros Hc Hs Hq.
  assert (Hle : quantity_sold sale <= s_stock_quantity s) by lia.
  rewrite (add_sale_run sale w s (calm_S _ _ Hc) Hs Hle). cbn [snd].
  assert (Hafter :
            checked_stock (sale_product_id sale)
              (mkDB (products (db w))
                    (map (decrement (of_product (sale_product_id sale))
                                    (quantity_sold sale))
                         (stocks (db w)))
                    (sales (db w) ++
                     [mkSaleRow (next_sale_id (db w)) (sale_product_id sale)
                                (quantity_sold sale) (sale_user_id sale)
                                (clock w)])
                    (next_product_id (db w)) (next_stock_id (db w))
                    (next_sale_id (db w) + 1)) =
            Some (set_quantity s 0)).
  { unfold checked_stock. cbn [stocks].
    rewrite (filter_decrement (of_product (sale_product_id sale)));
      [|intros; apply of_product_set_quantity].
    rewrite hd_error_map. fold (checked_stock (sale_product_id sale) (db w)).
    rewrite Hs. cbn [option_map]. rewrite Hq, Z.sub_diag. reflexivity. }
  split; [exact Hafter|].
  intros sale' Hpid Hpos.
  rewrite (add_sale_read_some sale' _ (set_quantity s 0)).
  - cbn [s_stock_quantity set_quantity].
    apply Z.ltb_lt in Hpos. rewrite Hpos. reflexivity.
  - cbn [faults]. do 3 apply calm_tl in Hc. exact Hc.
  - cbn [db]. rewrite Hpid. exact Hafter.
Qed.

Lemma add_sale_leaves_empty_lot_witness :
  stocks (db (snd (add_sale (mkSale 10 5 7) (one_lot 5)))) =
    [mkStockRow 1 10 0 738003 7] /\
  fst (add_sale (mkSale 10 1 7) (snd (add_sale (mkSale 10 5 7) (one_lot 5)))) =
    inl (HTTPException 400 "Insufficient stock available").
Proof.
  destruct (add_sale_leaves_empty_lot (mkSale 10 5 7) (one_lot 5)
              (mkStockRow 1 10 5 738003 7))
    as (_ & H).
  - exact I.
  - reflexivity.
  - reflexivity.
  - split; [reflexivity|]. apply (H (mkSale 10 1 7)); reflexivity.
Defined.

(** ** [signup] and [login] *)

Lemma accounts_query_calm st w :
  calm 1 (Accounts.faults w) ->
  Accounts.execute_query st w =
    (inr (fst (Accounts.run_stmt st w)),
     Accounts.mkWorld (Accounts.users (snd (Accounts.run_stmt st w)))
                      (Accounts.next_user_id (snd (Accounts.run_stmt st w)))
                      (tl (Accounts.faults w))).
Proof.
  intros H. unfold Accounts.execute_query.
  destruct (Accounts.faults w) as [|[m|] fs]; simpl in H; [|contradiction|];
    destruct (Accounts.run_stmt st w); reflexivity.
Qed.

Lemma accounts_query_cases st w :
  (exists msg,
     Accounts.execute_query st w =
       (inr (ErrorDict msg),
        Accounts.mkWorld (Accounts.users w) (Accounts.next_user_id w)
                         (tl (Accounts.faults w)))) \/
  Accounts.execute_query st w =
    (inr (fst (Accounts.run_stmt st w)),
     Accounts.mkWorld (Accounts.users (snd (Accounts.run_stmt st w)))
                      (Accounts.next_user_id (snd (Accounts.run_stmt st w)))
                      (tl (Accounts.faults w))).
Proof.
  unfold Accounts.execute_query.
  destruct (Accounts.faults w) as [|[m|] fs]; cbn [tl].
  - right. destruct (Accounts.run_stmt st w); reflexivity.
  - left. exists m. reflexivity.
  - right. destruct (Accounts.run_stmt st w); reflexivity.
Qed.

Lemma has_email_none e (l : list Accounts.UserRow) :
  (forall u, In u l -> Accounts.u_email u <> e) ->
  filter (Accounts.has_email e) l = [].
Proof.
  intros H. apply filter_nil_iff. intros u Hin.
  unfold Accounts.has_email. apply String.eqb_neq. exact (H u Hin).
Qed.

(** [signup] with an email a stored user has fails with status 400 and
    adds no user. *)
Theorem signup_duplicate_email user w :
  calm 1 (Accounts.faults w) ->
  (exists u, In u (Accounts.users w) /\
             Accounts.u_email u = Accounts.email user) ->
  fst (Accounts.signup user w) =
    inl (HTTPException 400 "User with this email already exists") /\
  Accounts.users (snd (Accounts.signup user w)) = Accounts.users w.
Proof.
  intros Hc (u & Hin & He).
  unfold Accounts.signup, Accounts.bind.
  rewrite accounts_query_calm by exact Hc.
  cbn [Accounts.run_stmt fst snd].
  destruct (filter (Accounts.has_email (Accounts.email user)) (Accounts.users w))
    as [|x l] eqn:E.
  - exfalso. pose proof (proj1 (filter_nil_iff _ _) E u Hin) as Hf.
    unfold Accounts.has_email in Hf. rewrite He, String.eqb_refl in Hf.
    discriminate.
  - split; reflexivity.
Qed.

Lemma signup_duplicate_email_witness :
  let w := Accounts.mkWorld [Accounts.mkUserRow 1 "ann" "ann@shop.example" "pw"] 2 [] in
  fst (Accounts.signup (Accounts.mkUser "ann2" "ann@shop.example" "other") w) =
    inl (HTTPException 400 "User with this email already exists") /\
  Accounts.users
    (snd (Accounts.signup (Accounts.mkUser "ann2" "ann@shop.example" "other") w)) =
  Accounts.users w.
Proof.
  apply (signup_duplicate_email
           (Accounts.mkUser "ann2" "ann@shop.example" "other")
           (Accounts.mkWorld [Accounts.mkUserRow 1 "ann" "ann@shop.example" "pw"]
                             2 [])).
  - exact I.
  - exists (Accounts.mkUserRow 1 "ann" "ann@shop.example" "pw").
    split; [left; reflexivity|reflexivity].
Defined.

(** A store error on the email check of [signup] is taken for "the email
    exists": the handler fails with status 400 "User with this email already
    exists" whoever is stored, and sends no insert. *)
Theorem signup_check_error user w msg fs :
  Accounts.faults w = Some msg :: fs ->
  Accounts.signup user w =
    (inl (HTTPException 400 "User with this email already exists"),
     Accounts.mkWorld (Accounts.users w) (Accounts.next_user_id w) fs).
Proof.
  intros H. unfold Accounts.signup, Accounts.bind, Accounts.execute_query.
  rewrite H. reflexivity.
Qed.

Lemma signup_check_error_witness :
  Accounts.signup (Accounts.mkUser "ann" "ann@shop.example" "pw")
    (Accounts.mkWorld [] 1 [Some "connection refused"]) =
  (inl (HTTPException 400 "User with this email already exists"),
   Accounts.mkWorld [] 1 []).
Proof.
  apply (signup_check_error (Accounts.mkUser "ann" "ann@shop.example" "pw")
           (Accounts.mkWorld [] 1 [Some "connection refused"])
           "connection refused" []).
  reflexivity.
Defined.

(** A store error on the insert of [signup] (the email being new) comes
    back as the response, with the error text of the store; no user is
    added. *)
Theorem signup_insert_error user w msg fs :
  Accounts.faults w = None :: Some msg :: fs ->
  (forall u, In u (Accounts.users w) ->
             Accounts.u_email u <> Accounts.email user) ->
  Accounts.signup user w =
    (inr (ErrorBody msg),
     Accounts.mkWorld (Accounts.users w) (Accounts.next_user_id w) fs).
Proof.
  intros H Hnew.
  unfold Accounts.signup, Accounts.bind, Accounts.execute_query.
  rewrite H. cbn [Accounts.run_stmt].
  rewrite (has_email_none _ _ Hnew). reflexivity.
Qed.

Lemma signup_insert_error_witness :
  Accounts.signup (Accounts.mkUser "ann" "ann@shop.example" "pw")
    (Accounts.mkWorld [] 1 [None; Some "duplicate entry"]) =
  (inr (ErrorBody "duplicate entry"), Accounts.mkWorld [] 1 []).
Proof.
  apply (signup_insert_error (Accounts.mkUser "ann" "ann@shop.example" "pw")
           (Accounts.mkWorld [] 1 [None; Some "duplicate entry"])
           "duplicate entry" []).
  - reflexivity.
  - intros u [].
Defined.

(** A user signed up under a new email can log in with the same email and
    password, and gets the [user_id] the store gave the new row. *)
Theorem signup_then_login user w :
  calm 3 (Accounts.faults w) ->
  (forall u, In u (Accounts.users w) ->
             Accounts.u_email u <> Accounts.email user) ->
  fst (Accounts.signup user w) = inr (Message "User registered successfully") /\
  fst (Accounts.login
         (Accounts.mkLogin (Accounts.email user) (Accounts.password user))
         (snd (Accounts.signup user w))) =
    inr (Accounts.LoginMessage "Login successful" (Accounts.next_user_id w)).
Proof.
  intros Hc Hnew.
  pose proof (calm_tl _ _ Hc) as Hc1. pose proof (calm_tl _ _ Hc1) as Hc2.
  assert (E : Accounts.signup user w =
              (inr (Message "User registered successfully"),
               Accounts.mkWorld
                 (Accounts.users w ++
                  [Accounts.mkUserRow (Accounts.next_user_id w)
                     (Accounts.username user) (Accounts.email user)
                     (Accounts.password user)])
                 (Accounts.next_user_id w + 1)
                 (tl (tl (Accounts.faults w))))).
  { unfold Accounts.signup, Accounts.bind.
    rewrite accounts_query_calm by (do 2 apply calm_S; exact Hc).
    cbn [Accounts.run_stmt fst snd]. rewrite (has_email_none _ _ Hnew).
    cbn [map truthy].
    rewrite accounts_query_calm by (apply calm_S; exact Hc1).
    reflexivity. }
  rewrite E. cbn [fst snd]. split; [reflexivity|].
  unfold Accounts.login, Accounts.bind.
  rewrite accounts_query_calm by exact Hc2.
  cbn [Accounts.run_stmt fst snd Accounts.users Accounts.login_email
       Accounts.login_password].
  rewrite filter_app.
  replace (filter (Accounts.has_credentials (Accounts.email user)
                                            (Accounts.password user))
                  (Accounts.users w))
    with (@nil Accounts.UserRow).
  - assert (Hcred :
              Accounts.has_credentials (Accounts.email user) (Accounts.password user)
                (Accounts.mkUserRow (Accounts.next_user_id w)
                   (Accounts.username user) (Accounts.email user)
                   (Accounts.password user)) = true).
    { unfold Accounts.has_credentials.
      cbn [Accounts.u_email Accounts.u_password].
      rewrite !String.eqb_refl. reflexivity. }
    cbn [app filter]. rewrite !Hcred. reflexivity.
  - symmetry. apply filter_nil_iff. intros u Hin.
    unfold Accounts.has_credentials.
    rewrite (proj2 (String.eqb_neq _ _) (Hnew u Hin)). reflexivity.
Qed.

Lemma signup_then_login_witness :
  let w := Accounts.mkWorld [Accounts.mkUserRow 1 "ann" "ann@shop.example" "pw"] 2 [] in
  fst (Accounts.login (Accounts.mkLogin "bob@shop.example" "secret")
         (snd (Accounts.signup
                 (Accounts.mkUser "bob" "bob@shop.example" "secret") w))) =
    inr (Accounts.LoginMessage "Login successful" 2).
Proof.
  apply (signup_then_login (Accounts.mkUser "bob" "bob@shop.example" "secret")
           (Accounts.mkWorld [Accounts.mkUserRow 1 "ann" "ann@shop.example" "pw"]
                             2 [])).
  - exact I.
  - intros u [<-|[]]. discriminate.
Defined.

(** Every table of users [signup] can leave behind: the one it found, or
    that one with the new user at its end, no stored user having the new
    email. *)
Lemma signup_users user w :
  Accounts.users (snd (Accounts.signup user w)) = Accounts.users w \/
  ((forall u, In u (Accounts.users w) ->
              Accounts.u_email u <> Accounts.email user) /\
   Accounts.users (snd (Accounts.signup user w)) =
     (Accounts.users w ++
      [Accounts.mkUserRow (Accounts.next_user_id w) (Accounts.username user)
                          (Accounts.email user) (Accounts.password user)])%list).
Proof.
  unfold Accounts.signup, Accounts.bind.
  destruct (accounts_query_cases
              (Accounts.SelectUserIdByEmail (Accounts.email user)) w)
    as [(m & ->)| ->]; [left; reflexivity|].
  cbn [Accounts.run_stmt fst snd].
  destruct (filter (Accounts.has_email (Accounts.email user)) (Accounts.users w))
    as [|x l] eqn:E; [|left; reflexivity].
  cbn [map truthy].
  match goal with
  | |- context [Accounts.execute_query ?st ?w'] =>
      destruct (accounts_query_cases st w') as [(m & ->)| ->]
  end; [left; reflexivity|].
  right. split; [|reflexivity].
  intros u Hin. pose proof (proj1 (filter_nil_iff _ _) E u Hin) as Hf.
  unfold Accounts.has_email in Hf. apply String.eqb_neq. exact Hf.
Qed.

(** [signup] keeps emails unique, whatever the store does with its
    statements: it never stores a second user under a stored email. *)
Theorem signup_keeps_emails_unique user w :
  Accounts.emails_unique w ->
  Accounts.emails_unique (snd (Accounts.signup user w)).
Proof.
  unfold Accounts.emails_unique. intros Hu.
  destruct (signup_users user w) as [-> | (Hnew & ->)]; [exact Hu|].
  rewrite map_app. apply NoDup_app.
  - exact Hu.
  - cbn [map]. constructor; [intros []|constructor].
  - intros e Hin [<-|[]]. cbn [Accounts.u_email] in Hin.
    apply in_map_iff in Hin. destruct Hin as (u & He & Hin).
    exact (Hnew u Hin He).
Qed.

Lemma signup_keeps_emails_unique_witness :
  let w := Accounts.mkWorld [Accounts.mkUserRow 1 "ann" "ann@shop.example" "pw"] 2 [] in
  Accounts.emails_unique
    (snd (Accounts.signup (Accounts.mkUser "bob" "bob@shop.example" "secret") w)) /\
  Accounts.emails_unique
    (snd (Accounts.signup (Accounts.mkUser "ann2" "ann@shop.example" "other") w)).
Proof.
  split;
    apply (signup_keeps_emails_unique _
             (Accounts.mkWorld
                [Accounts.mkUserRow 1 "ann" "ann@shop.example" "pw"] 2 []));
    unfold Accounts.emails_unique; cbn;
    (constructor; [intros []|constructor]).
Defined.

(** [login] succeeds only with the email and the password of a stored
    user, whose [user_id] it returns; it never changes the users, whatever
    the store does. *)
Theorem login_checks_credentials login_data w :
  Accounts.users (snd (Accounts.login login_data w)) = Accounts.users w /\
  forall message user_id,
    fst (Accounts.login login_data w) =
      inr (Accounts.LoginMessage message user_id) ->
    exists u,
      In u (Accounts.users w) /\
      Accounts.u_email u = Accounts.login_email login_data /\
      Accounts.u_password u = Accounts.login_password login_data /\
      Accounts.u_user_id u = user_id.
Proof.
  unfold Accounts.login, Accounts.bind.
  destruct (accounts_query_cases
              (Accounts.SelectUserByCredentials
                 (Accounts.login_email login_data)
                 (Accounts.login_password login_data)) w)
    as [(m & ->)| ->].
  - cbn. split; [reflexivity|]. intros ? ? [=].
  - cbn [Accounts.run_stmt fst snd].
    destruct (filter (Accounts.has_credentials
                        (Accounts.login_email login_data)
                        (Accounts.login_password login_data))
                     (Accounts.users w)) as [|u l] eqn:E.
    + cbn. split; [reflexivity|]. intros ? ? [=].
    + cbn. split; [reflexivity|]. intros message user_id [= _ <-].
      assert (Hin : In u (filter (Accounts.has_credentials
                                    (Accounts.login_email login_data)
                                    (Accounts.login_password login_data))
                                 (Accounts.users w)))
        by (rewrite E; left; reflexivity).
      apply filter_In in Hin. destruct Hin as (Hin & Hc).
      unfold Accounts.has_credentials in Hc. apply andb_true_iff in Hc.
      destruct Hc as (He & Hp). apply String.eqb_eq in He, Hp.
      exists u. auto.
Qed.

Lemma login_checks_credentials_witness :
  let w := Accounts.mkWorld [Accounts.mkUserRow 1 "ann" "ann@shop.example" "pw"] 2 [] in
  fst (Accounts.login (Accounts.mkLogin "ann@shop.example" "pw") w) =
    inr (Accounts.LoginMessage "Login successful" 1) /\
  exists u, In u (Accounts.users w) /\ Accounts.u_user_id u = 1.
Proof.
  split; [reflexivity|].
  destruct (login_checks_credentials
              (Accounts.mkLogin "ann@shop.example" "pw")
              (Accounts.mkWorld
                 [Accounts.mkUserRow 1 "ann" "ann@shop.example" "pw"] 2 []))
    as (_ & H).
  destruct (H "Login successful" 1 eq_refl) as (u & Hin & _ & _ & Hid).
  exists u. split; assumption.
Defined.

(** [login] with an email and password no stored user has together fails
    with status 400 "Invalid email or password". *)
Theorem login_invalid login_data w :
  calm 1 (Accounts.faults w) ->
  (forall u, In u (Accounts.users w) ->
             Accounts.u_email u <> Accounts.login_email login_data \/
             Accounts.u_password u <> Accounts.login_password login_data) ->
  fst (Accounts.login login_data w) =
    inl (HTTPException 400 "Invalid email or password").
Proof.
  intros Hc Hnone. unfold Accounts.login, Accounts.bind.
  rewrite accounts_query_calm by exact Hc.
  cbn [Accounts.run_stmt fst snd].
  replace (filter (Accounts.has_credentials
                     (Accounts.login_email login_data)
                     (Accounts.login_password login_data))
                  (Accounts.users w))
    with (@nil Accounts.UserRow); [reflexivity|].
  symmetry. apply filter_nil_iff. intros u Hin.
  unfold Accounts.has_credentials.
  destruct (Hnone u Hin) as [H|H]; apply String.eqb_neq in H; rewrite H;
    [reflexivity|apply andb_false_r].
Qed.

Lemma login_invalid_witness :
  fst (Accounts.login (Accounts.mkLogin "ann@shop.example" "guess")
         (Accounts.mkWorld
            [Accounts.mkUserRow 1 "ann" "ann@shop.example" "pw"] 2 [])) =
    inl (HTTPException 400 "Invalid email or password").
Proof.
  apply (login_invalid (Accounts.mkLogin "ann@shop.example" "guess")
           (Accounts.mkWorld
              [Accounts.mkUserRow 1 "ann" "ann@shop.example" "pw"] 2 [])).
  - exact I.
  - intros u [<-|[]]. right. discriminate.
Defined.

(** A store error on the read of [login] ends the handler in [KeyError]
    instead of status 400. *)
Theorem login_read_error login_data w msg fs :
  Accounts.faults w = Some msg :: fs ->
  fst (Accounts.login login_data w) = inl KeyError.
Proof.
  intros H. unfold Accounts.login, Accounts.bind, Accounts.execute_query.
  rewrite H. reflexivity.
Qed.

Lemma login_read_error_witness :
  fst (Accounts.login (Accounts.mkLogin "ann@shop.example" "pw")
         (Accounts.mkWorld
            [Accounts.mkUserRow 1 "ann" "ann@shop.example" "pw"] 2
            [Some "connection refused"])) =
    inl KeyError.
Proof.
  apply (login_read_error (Accounts.mkLogin "ann@shop.example" "pw")
           (Accounts.mkWorld
              [Accounts.mkUserRow 1 "ann" "ann@shop.example" "pw"] 2
              [Some "connection refused"])
           "connection refused" []).
  reflexivity.
Defined.

(** ** [get_expiring_stocks] on any store *)

Lemma filter_filter_andb {A} (f g : A -> bool) (l : list A) :
  filter g (filter f l) = filter (fun x => f x && g x) l.
Proof.
  induction l as [|a l IH]; [reflexivity|].
  cbn [filter]. destruct (f a); cbn [andb filter]; [|exact IH].
  destruct (g a); rewrite IH; reflexivity.
Qed.

(** Where product ids are keys, the join yields one row for each stock row
    whose product is stored, and none for the others. *)
Lemma join_products_stored ps ss :
  NoDup (map p_product_id ps) ->
  Forall2 (fun s row => exists p, In p ps /\ p_product_id p = s_product_id s /\
                                  row = stock_view s p)
          (filter (fun s => existsb (is_product (s_product_id s)) ps) ss)
          (join_products ps ss).
Proof.
  intros Hnd. induction ss as [|s ss IH]; [constructor|].
  unfold join_products. cbn [flat_map filter].
  destruct (existsb (is_product (s_product_id s)) ps) eqn:E.
  - apply existsb_exists in E. destruct E as (p & Hin & Hp).
    apply Z.eqb_eq in Hp.
    rewrite <- Hp, (filter_is_product_key ps p Hnd Hin). cbn [map app].
    constructor; [|exact IH].
    exists p. rewrite Hp. auto.
  - replace (filter (is_product (s_product_id s)) ps) with (@nil ProductRow);
      [exact IH|].
    symmetry. apply filter_nil_iff. intros p Hin.
    destruct (is_product (s_product_id s) p) eqn:Hp; [|reflexivity].
    assert (Ht : existsb (is_product (s_product_id s)) ps = true)
      by (apply existsb_exists; exists p; auto).
    congruence.
Qed.

(** The listing writes nothing, whatever the store and the window. *)
Lemma get_expiring_stocks_db user_id days w :
  db (snd (get_expiring_stocks user_id days w)) = db w.
Proof.
  unfold get_expiring_stocks, bind, datetime_now, timedelta, datetime_add.
  destruct (Z.abs _ <=? 999999999); [|reflexivity].
  cbn [ret]. unfold ret. cbv beta iota zeta.
  destruct (_ && _); [|reflexivity].
  match goal with
  | |- context [execute_query ?st ?w'] =>
      destruct (execute_query_cases st w') as [(m & ->)| ->]
  end; reflexivity.
Qed.

(** C9, as the code has it.  [get_expiring_stocks] never writes.  When
    [days] (7 when not given) exceeds 999999999 in absolute value, or today
    plus [days] is outside the dates [datetime] holds, it raises
    [OverflowError] and sends no statement.  Otherwise, on a store that
    answers and whose product ids are keys, it returns, in the order of the
    table, one row for each stock row of the user whose expiry date is on or
    before today plus [days] and whose product is stored, carrying the stock
    id, the name of that product, the quantity and the expiry date (a stock
    row whose product is not stored is left out by the join); with
    [days = 0] every row returned is of a stock row expiring today or
    earlier. *)
Theorem get_expiring_stocks_joined user_id days w :
  db (snd (get_expiring_stocks user_id days w)) = db w /\
  (999999999 < Z.abs (days_or_default days) \/
   today w + days_or_default days < min_ordinal \/
   max_ordinal < today w + days_or_default days ->
   get_expiring_stocks user_id days w = (inl OverflowError, w)) /\
  (calm 1 (faults w) ->
   Z.abs (days_or_default days) <= 999999999 ->
   min_ordinal <= today w + days_or_default days <= max_ordinal ->
   product_ids_unique (db w) ->
   exists rows,
     fst (get_expiring_stocks user_id days w) = inr (RowList rows) /\
     Forall2
       (fun s row =>
          exists p, In p (products (db w)) /\
                    p_product_id p = s_product_id s /\
                    row = [ ("stock_id", VInt (s_stock_id s));
                            ("product_name", VStr (p_product_name p));
                            ("stock_quantity", VInt (s_stock_quantity s));
                            ("expiry_date", VDate (s_expiry_date s)) ])
       (filter (fun s => (s_user_id s =? user_id) &&
                         (s_expiry_date s <=? today w + days_or_default days) &&
                         references_product (db w) s)
               (stocks (db w)))
       rows /\
     (days = Some 0 ->
      forall row, In row rows ->
        exists s, In s (stocks (db w)) /\ s_user_id s = user_id /\
                  s_expiry_date s <= today w /\
                  lookup "stock_id" row = Some (VInt (s_stock_id s)))).
Proof.
  split; [apply get_expiring_stocks_db|]. split.
  - intros H.
    unfold get_expiring_stocks, bind, datetime_now, timedelta, datetime_add.
    fold (days_or_default days).
    destruct (Z.leb_spec (Z.abs (days_or_default days)) 999999999) as [Ha|Ha];
      [|reflexivity].
    cbn [ret]. unfold ret. cbv beta iota zeta.
    rewrite ?strftime_date_add. fold (today w).
    destruct (Z.leb_spec min_ordinal (today w + days_or_default days));
      [|reflexivity].
    destruct (Z.leb_spec (today w + days_or_default days) max_ordinal);
      [|reflexivity].
    lia.
  - intros Hc Habs Hrange Hkeys.
    rewrite (get_expiring_stocks_calm user_id days w Hc Habs Hrange).
    cbn [fst].
    pose proof (join_products_stored (products (db w))
                  (filter (expiring (today w + days_or_default days) user_id)
                          (stocks (db w)))
                  Hkeys) as Hjoin.
    rewrite filter_filter_andb in Hjoin.
    eexists. split; [reflexivity|]. split.
    + erewrite filter_ext; [exact Hjoin|].
      intros s. unfold expiring, references_product.
      rewrite (andb_comm (s_user_id s =? user_id)). reflexivity.
    + intros -> row Hin.
      destruct (Forall2_In_r _ _ _ _ Hjoin Hin) as (s & Hs & p & _ & _ & ->).
      apply filter_In in Hs. destruct Hs as (Hs & Hcond).
      apply andb_true_iff in Hcond. destruct Hcond as (Hexp & _).
      unfold expiring in Hexp. apply andb_true_iff in Hexp.
      destruct Hexp as (He & Hu). apply Z.leb_le in He. apply Z.eqb_eq in Hu.
      cbn [days_or_default] in He. rewrite Z.add_0_r in He.
      exists s. repeat split; auto.
Qed.

Lemma get_expiring_stocks_joined_witness :
  (exists rows,
     fst (get_expiring_stocks 1 None (two_lots 1 5 4)) = inr (RowList rows) /\
     rows = [ [ ("stock_id", VInt 1); ("product_name", VStr "milk");
                ("stock_quantity", VInt 5); ("expiry_date", VDate 738003) ] ]) /\
  get_expiring_stocks 1 (Some 3000000) (two_lots 1 5 4) =
    (inl OverflowError, two_lots 1 5 4).
Proof.
  destruct (get_expiring_stocks_joined 1 None (two_lots 1 5 4))
    as (_ & _ & H).
  destruct (get_expiring_stocks_joined 1 (Some 3000000) (two_lots 1 5 4))
    as (_ & Hover & _).
  split.
  - destruct H as (rows & H1 & _).
    + exact I.
    + simpl. lia.
    + split; vm_compute; discriminate.
    + unfold product_ids_unique. vm_compute. repeat constructor. intros [].
    + exists rows. split; [exact H1|].
      vm_compute in H1. injection H1 as <-. reflexivity.
  - apply Hover. right. right. vm_compute. reflexivity.
Defined.

(** C9 does not hold of every call: a lot added through [add_stock] for a
    [product_id] no product carries is owned by the user and expires inside
    the window, yet the join leaves it out of the listing; and a window of
    3000000 days ends in [OverflowError] instead of a listing. *)
Lemma expiring_lot_of_unstored_product_unlisted :
  let w := exec (add_stock (mkStock 99 5 738003 1)) fresh_world in
  fst (add_stock (mkStock 99 5 738003 1) fresh_world) =
    inr (Message "Stock added successfully") /\
  filter (fun s => (s_user_id s =? 1) && (s_expiry_date s <=? today w + 7))
         (stocks (db w)) = [mkStockRow 1 99 5 738003 1] /\
  fst (get_expiring_stocks 1 None w) = inr (RowList []) /\
  fst (get_expiring_stocks 1 (Some 3000000) w) = inl OverflowError.
Proof. cbv zeta. repeat split. Qed.
